(** * go-service-us3: the UCloud US3 storage adapter

    A shallow embedding of the package [us3] (utils.go, the storage
    operations and the iterator state) and the properties of its path
    resolver, error normalizer, object formatter, listing engine and
    single-shot operations.

    Go strings are byte sequences: they are [string] here (a list of
    8-bit [ascii]).  Integers are [Z]; the 64-bit range is written out
    where the code depends on it. *)

From Stdlib Require Import ZArith List String Ascii Bool Lia.
Import ListNotations.
Local Open Scope string_scope.
Local Open Scope Z_scope.

Set Implicit Arguments.

(** ** Package [strings] *)

Module strings.

(** [strings.HasPrefix(s, prefix)]. *)
Fixpoint HasPrefix (s prefix : string) {struct prefix} : bool :=
  match prefix with
  | EmptyString => true
  | String c prefix' =>
      match s with
      | EmptyString => false
      | String d s' => Ascii.eqb d c && HasPrefix s' prefix'
      end
  end.

(** The slice [s[n:]], for [n <= len(s)]. *)
Fixpoint from (n : nat) (s : string) : string :=
  match n with
  | O => s
  | S n' => match s with EmptyString => EmptyString | String _ s' => from n' s' end
  end.

(** [strings.TrimPrefix(s, prefix)]: [s] without the leading [prefix];
    [s] itself when it does not start with [prefix]. *)
Definition TrimPrefix (s prefix : string) : string :=
  if HasPrefix s prefix then from (String.length prefix) s else s.

End strings.

(** ** utils.go: the storage handle and the path resolver *)

(** Modelled from the spec: [StorageFeatures], declared in the package's
    generated code, which is not among the sources.  Of the feature flags
    the operations read [VirtualDir], whether virtual directories are
    supported. *)
Record StorageFeatures : Type := { VirtualDir : bool }.

(** [type Storage struct].  The SDK handle [client] is not a field here:
    the calls made through it are the events of [Prog] below.
    [defaultPairs] is not read by any operation of storage.go. *)
Record Storage : Type := {
  bucket : string;
  workDir : string;
  features : StorageFeatures
}.

Definition getAbsPath (s : Storage) (path : string) : string :=
  let prefix := strings.TrimPrefix (workDir s) "/" in
  prefix ++ path.

Definition getRelPath (s : Storage) (path : string) : string :=
  let prefix := strings.TrimPrefix (workDir s) "/" in
  strings.TrimPrefix path prefix.

(** ** go-storage [types]: modes, objects, pairs *)

(** [types.ObjectMode] (a uint32 of bit flags) with go-storage's
    constants [ModeDir = 1 << 0] and [ModeRead = 1 << 1]. *)
Definition ObjectMode : Type := Z.
Definition ModeDir : ObjectMode := Z.shiftl 1 0.
Definition ModeRead : ObjectMode := Z.shiftl 1 1.

Module ObjectModeMethods.
(** [func (o ObjectMode) IsDir() bool { return o&ModeDir != 0 }] *)
Definition IsDir (o : ObjectMode) : bool := negb (Z.land o ModeDir =? 0).
Definition IsRead (o : ObjectMode) : bool := negb (Z.land o ModeRead =? 0).
End ObjectModeMethods.

(** [types.ListMode] (a uint8 of bit flags), in go-storage's order:
    [ListModeDir = 1 << 0], [ListModePrefix = 1 << 1], then
    [ListModePart = 1 << 2] and [ListModeBlock = 1 << 3]. *)
Definition ListMode : Type := Z.
Definition ListModeDir : ListMode := Z.shiftl 1 0.
Definition ListModePrefix : ListMode := Z.shiftl 1 1.
Definition ListModePart : ListMode := Z.shiftl 1 2.
Definition ListModeBlock : ListMode := Z.shiftl 1 3.

Module ListModeMethods.
Definition IsDir (l : ListMode) : bool := negb (Z.land l ListModeDir =? 0).
Definition IsPrefix (l : ListMode) : bool := negb (Z.land l ListModePrefix =? 0).
End ListModeMethods.

(** [time.Time], as the instant it denotes: seconds and nanoseconds
    since the Unix epoch. *)
Record Time : Type := { sec : Z; nsec : Z }.

Module time.
(** [time.Unix(sec, nsec)] for [0 <= nsec < 1e9]. *)
Definition Unix (sec nsec : Z) : Time := {| sec := sec; nsec := nsec |}.
(** [time.RFC1123] *)
Definition RFC1123 : string := "Mon, 02 Jan 2006 15:04:05 MST".
End time.

(** Modelled from the spec: [ObjectSystemMetadata], declared in the
    package's generated code, which is not among the sources: the
    system-metadata record carrying the backend-specific storage class. *)
Record ObjectSystemMetadata : Type := { StorageClass : string }.

(** [types.Object]: the fields this package writes.  An optional
    attribute that was never set is [None]; [done] is the argument of
    [types.NewObject]. *)
Record Object : Type := {
  ID : string;
  Path : string;
  Mode : ObjectMode;
  contentLength : option Z;
  lastModified : option Time;
  contentType : option string;
  etag : option string;
  systemMetadata : option ObjectSystemMetadata;
  done : bool
}.

(** [types.NewObject(client, done)] *)
Definition NewObject (done : bool) : Object :=
  {| ID := ""; Path := ""; Mode := 0;
     contentLength := None; lastModified := None; contentType := None;
     etag := None; systemMetadata := None; done := done |}.

Definition setID (o : Object) (v : string) : Object :=
  {| ID := v; Path := Path o; Mode := Mode o;
     contentLength := contentLength o; lastModified := lastModified o;
     contentType := contentType o; etag := etag o;
     systemMetadata := systemMetadata o; done := done o |}.

Definition setPath (o : Object) (v : string) : Object :=
  {| ID := ID o; Path := v; Mode := Mode o;
     contentLength := contentLength o; lastModified := lastModified o;
     contentType := contentType o; etag := etag o;
     systemMetadata := systemMetadata o; done := done o |}.

(** [o.Mode |= m] *)
Definition orMode (o : Object) (m : ObjectMode) : Object :=
  {| ID := ID o; Path := Path o; Mode := Z.lor (Mode o) m;
     contentLength := contentLength o; lastModified := lastModified o;
     contentType := contentType o; etag := etag o;
     systemMetadata := systemMetadata o; done := done o |}.

Definition SetContentLength (o : Object) (v : Z) : Object :=
  {| ID := ID o; Path := Path o; Mode := Mode o;
     contentLength := Some v; lastModified := lastModified o;
     contentType := contentType o; etag := etag o;
     systemMetadata := systemMetadata o; done := done o |}.

Definition SetLastModified (o : Object) (v : Time) : Object :=
  {| ID := ID o; Path := Path o; Mode := Mode o;
     contentLength := contentLength o; lastModified := Some v;
     contentType := contentType o; etag := etag o;
     systemMetadata := systemMetadata o; done := done o |}.

Definition SetContentType (o : Object) (v : string) : Object :=
  {| ID := ID o; Path := Path o; Mode := Mode o;
     contentLength := contentLength o; lastModified := lastModified o;
     contentType := Some v; etag := etag o;
     systemMetadata := systemMetadata o; done := done o |}.

Definition SetEtag (o : Object) (v : string) : Object :=
  {| ID := ID o; Path := Path o; Mode := Mode o;
     contentLength := contentLength o; lastModified := lastModified o;
     contentType := contentType o; etag := Some v;
     systemMetadata := systemMetadata o; done := done o |}.

Definition SetSystemMetadata (o : Object) (v : ObjectSystemMetadata) : Object :=
  {| ID := ID o; Path := Path o; Mode := Mode o;
     contentLength := contentLength o; lastModified := lastModified o;
     contentType := contentType o; etag := etag o;
     systemMetadata := Some v; done := done o |}.

(** [func (s *Storage) newObject(done bool) *types.Object] *)
Definition newObject (s : Storage) (done : bool) : Object := NewObject done.

(** [types.Pair], for the one pair this package builds itself:
    [ps.WithObjectMode(mode)]. *)
Inductive Pair : Type := WithObjectMode (v : ObjectMode).

(** ** Errors *)

(** [uerr.ServerError] of the UCloud SDK.  The package reads it through
    [Code()] only; [message] stands for the rest of the struct. *)
Record ServerError : Type := { retCode : Z; message : string }.

Definition Code (e : ServerError) : Z := retCode e.

(** The two causes a [*strconv.NumError] of [ParseInt] carries. *)
Inductive NumErrCause : Type := ErrSyntax | ErrRange.

(** A non-nil Go [error], by dynamic type.  The SDK's [ServerError]
    has value receivers, so both [uerr.ServerError] and
    [*uerr.ServerError] are error types, and a type assertion tells
    them apart.  (A nil [*uerr.ServerError] stored in an [error] is
    outside this model.) *)
Inductive error : Type :=
| errorCode (s : string)                        (* services.NewErrorCode(s) *)
| PairUnsupportedError (pair : Pair)            (* services.PairUnsupportedError *)
| ListModeInvalidError (actual : ListMode)      (* services.ListModeInvalidError *)
| ServerError_value (e : ServerError)           (* uerr.ServerError *)
| ServerError_pointer (e : ServerError)         (* *uerr.ServerError *)
| wrapError (msg : string) (err : error)        (* *fmt.wrapError *)
| NumError (Func Num : string) (Err : NumErrCause)   (* *strconv.NumError *)
| errorString (s : string)                      (* *errors.errorString *)
| IterateDone.                                  (* types.IterateDone *)

Module services.
Definition ErrUnexpected : error := errorCode "unexpected".
Definition ErrPermissionDenied : error := errorCode "permission denied".
Definition ErrObjectNotExist : error := errorCode "object not exist".
Definition ErrCapabilityInsufficient : error := errorCode "capability insufficient".
Definition ErrListModeInvalid : error := errorCode "list mode invalid".

(** The type assertion [err.(services.InternalError)]: whether the
    dynamic type of [err] has the marker method [IsInternalError], which
    only go-storage's own error types have. *)
Definition InternalError (err : error) : bool :=
  match err with
  | errorCode _ | PairUnsupportedError _ | ListModeInvalidError _ => true
  | _ => false
  end.
End services.

(** The [Error()] text of the error structs that the SDK, go-storage and
    strconv declare.  Their formats are those libraries' business and
    are a parameter of what follows. *)
Class ErrorFormats : Type := {
  ServerError_Error : ServerError -> string;
  PairUnsupportedError_Error : Pair -> string;
  ListModeInvalidError_Error : ListMode -> string;
  NumError_Error : string -> string -> NumErrCause -> string
}.

(** [err.Error()] *)
Definition Error `{ErrorFormats} (err : error) : string :=
  match err with
  | errorCode s => s
  | PairUnsupportedError p => PairUnsupportedError_Error p
  | ListModeInvalidError m => ListModeInvalidError_Error m
  | ServerError_value e => ServerError_Error e
  | ServerError_pointer e => ServerError_Error e
  | wrapError msg _ => msg
  | NumError f n c => NumError_Error f n c
  | errorString s => s
  | IterateDone => "iterate is done"
  end.

(** [strconv.ErrSyntax] and [strconv.ErrRange], made by [errors.New]. *)
Definition NumErrCause_error (c : NumErrCause) : error :=
  match c with
  | ErrSyntax => errorString "invalid syntax"
  | ErrRange => errorString "value out of range"
  end.

Module errors.
(** [errors.Unwrap(err)]: the result of the [Unwrap] method when the
    dynamic type has one.  [*fmt.wrapError] returns the error it wraps,
    [*strconv.NumError] its cause, and go-storage's
    [PairUnsupportedError] and [ListModeInvalidError] their sentinel. *)
Definition Unwrap (err : error) : option error :=
  match err with
  | wrapError _ e => Some e
  | NumError _ _ c => Some (NumErrCause_error c)
  | PairUnsupportedError _ => Some services.ErrCapabilityInsufficient
  | ListModeInvalidError _ => Some services.ErrListModeInvalid
  | _ => None
  end.

(** The chain [err, Unwrap(err), Unwrap(Unwrap(err)), ...] that
    [errors.Is] and [errors.As] walk. *)
Fixpoint chain (err : error) : list error :=
  err :: match err with
         | wrapError _ e => chain e
         | NumError _ _ c => [NumErrCause_error c]
         | PairUnsupportedError _ => [services.ErrCapabilityInsufficient]
         | ListModeInvalidError _ => [services.ErrListModeInvalid]
         | _ => []
         end.
End errors.

Module fmt.
(** [fmt.Errorf("%w, %v", w, v)]: a [*fmt.wrapError] whose [Unwrap]
    is the [%w] operand; the [%v] operand contributes its text only. *)
Definition Errorf_w_v `{ErrorFormats} (w v : error) : error :=
  wrapError (Error w ++ ", " ++ Error v) w.
End fmt.

(** [const ( AccessDenied = -148643; NoSuchKey = -148654 )] *)
Definition AccessDenied : Z := -148643.
Definition NoSuchKey : Z := -148654.

(** [func formatError(err error) error] *)
Definition formatError `{ErrorFormats} (err : error) : error :=
  if services.InternalError err then err
  else
    match err with
    | ServerError_pointer e =>
        if Code e =? AccessDenied then
          fmt.Errorf_w_v services.ErrPermissionDenied err
        else if Code e =? NoSuchKey then
          fmt.Errorf_w_v services.ErrObjectNotExist err
        else
          fmt.Errorf_w_v services.ErrUnexpected err
    | _ => fmt.Errorf_w_v services.ErrUnexpected err
    end.

(** ** Package [strconv] *)

Module strconv.

(** The value of a decimal digit byte. *)
Definition digit (c : ascii) : option Z :=
  let n := Z.of_N (N_of_ascii c) in
  if (48 <=? n) && (n <=? 57) then Some (n - 48) else None.

(** The digit loop of [ParseUint(s, 10, 64)]: bytes are consumed left to
    right; a byte that is no decimal digit is a syntax error, a value
    above [2^64 - 1] a range error, whichever comes first. *)
Fixpoint parseDigits (s : string) (n : Z) : Z + NumErrCause :=
  match s with
  | EmptyString => inl n
  | String c s' =>
      match digit c with
      | None => inr ErrSyntax
      | Some d =>
          if 2 ^ 64 - 1 <? n * 10 + d then inr ErrRange
          else parseDigits s' (n * 10 + d)
      end
  end.

Definition ParseUint10 (s : string) : Z + NumErrCause :=
  match s with
  | EmptyString => inr ErrSyntax
  | _ => parseDigits s 0
  end.

(** [strconv.ParseInt(s, 10, 64)] *)
Definition ParseInt (s0 : string) : Z + error :=
  let fnParseInt := "ParseInt" in
  match s0 with
  | EmptyString => inr (NumError fnParseInt s0 ErrSyntax)
  | String c rest =>
      let neg := Ascii.eqb c "-" in
      let s := if Ascii.eqb c "+" || neg then rest else s0 in
      let cutoff := 2 ^ 63 in
      match ParseUint10 s with
      | inr ErrSyntax => inr (NumError fnParseInt s0 ErrSyntax)
      | inr ErrRange => inr (NumError fnParseInt s0 ErrRange)
      | inl un =>
          if negb neg && (cutoff <=? un) then inr (NumError fnParseInt s0 ErrRange)
          else if neg && (cutoff <? un) then inr (NumError fnParseInt s0 ErrRange)
          else inl (if neg then - un else un)
      end
  end.

End strconv.

(** ** The SDK's response records *)

(** [us3.ObjectInfo]: the fields the formatter reads.  [LastModified] is
    a Go [int] holding milliseconds since the epoch. *)
Record ObjectInfo : Type := {
  Key : string;
  Size : string;
  LastModified : Z;
  Etag : string;
  ObjectInfo_StorageClass : string
}.

(** [us3.CommonPreInfo] *)
Record CommonPreInfo : Type := { Prefix : string }.

(** [us3.ListObjectsResponse]: the fields the listing engine reads. *)
Record ListObjectsResponse : Type := {
  IsTruncated : bool;
  NextMarker : string;
  Contents : list ObjectInfo;
  CommonPrefixes : list CommonPreInfo
}.

(** [http.Header], seen through its [Get] method: the first value stored
    under a key, [""] when there is none. *)
Definition Header : Type := string -> string.
Definition Get (h : Header) (key : string) : string := h key.

(** ** utils.go: the object formatter *)

(** Go's [int64(a) / b]: the quotient truncated toward zero. *)
Definition int64_div (a b : Z) : Z := Z.quot a b.

(** [func (s *Storage) formatFileObject(v us3.ObjectInfo) (o *types.Object, err error)] *)
Definition formatFileObject (s : Storage) (v : ObjectInfo) : Object + error :=
  let o := newObject s false in
  let o := setID o (Key v) in
  let o := setPath o (getRelPath s (Key v)) in
  let o := orMode o ModeRead in
  match strconv.ParseInt (Size v) with
  | inr err => inr err
  | inl length =>
      let o := SetContentLength o length in
      let lastModified := time.Unix (int64_div (LastModified v) 1000) 0 in
      let o := SetLastModified o lastModified in
      let o := if String.eqb (Etag v) "" then o else SetEtag o (Etag v) in
      let sm := {| StorageClass := "" |} in
      let sm := if String.eqb (ObjectInfo_StorageClass v) "" then sm
                else {| StorageClass := ObjectInfo_StorageClass v |} in
      let o := SetSystemMetadata o sm in
      inl o
  end.

(** ** The SDK handle as a source of events

    Every operation of storage.go is a short program over the methods
    and fields of [s.client] (a [*us3.UFileRequest]).  A program is a
    tree of calls; what the remote service answers is supplied by a
    handler when the program is run. *)

Inductive Call : Type :=
| DeleteFile (keyName : string)
| HeadFile (keyName : string)
| ListObjects (prefix marker delimiter : string) (maxkeys : Z)
| GetPrivateURL (keyName : string) (expiresDuration : Z)
| Download (reqURL : string)
| LastResponseHeader
| LastResponseBody.

(** The Go result type of each call; a nil [error] is [None]. *)
Definition Resp (c : Call) : Type :=
  match c with
  | DeleteFile _ => option error
  | HeadFile _ => option error
  | ListObjects _ _ _ _ => (ListObjectsResponse * option error)%type
  | GetPrivateURL _ _ => string
  | Download _ => option error
  | LastResponseHeader => Header
  | LastResponseBody => string
  end.

Inductive Prog (A : Type) : Type :=
| Ret (a : A)
| Vis (c : Call) (k : Resp c -> Prog A).

Arguments Ret {A} a.
Arguments Vis {A} c k.

Fixpoint bind {A B : Type} (p : Prog A) (f : A -> Prog B) : Prog B :=
  match p with
  | Ret a => f a
  | Vis c k => Vis c (fun r => bind (k r) f)
  end.

Definition call (c : Call) : Prog (Resp c) := Vis c (fun r => Ret r).

Notation "x <- p ;; q" := (bind p (fun x => q))
  (at level 61, p at next level, right associativity).

(** The methods and fields of [s.client], each with its Go result type. *)
Module client.
Definition DeleteFile (keyName : string) : Prog (option error) :=
  call (DeleteFile keyName).
Definition HeadFile (keyName : string) : Prog (option error) :=
  call (HeadFile keyName).
Definition ListObjects (prefix marker delimiter : string) (maxkeys : Z)
  : Prog (ListObjectsResponse * option error) :=
  call (ListObjects prefix marker delimiter maxkeys).
Definition GetPrivateURL (keyName : string) (expiresDuration : Z) : Prog string :=
  call (GetPrivateURL keyName expiresDuration).
Definition Download (reqURL : string) : Prog (option error) :=
  call (Download reqURL).
Definition LastResponseHeader : Prog Header := call LastResponseHeader.
Definition LastResponseBody : Prog string := call LastResponseBody.
End client.

(** A remote service with state [St] answers each call and moves on. *)
Definition Handler (St : Type) : Type := forall c : Call, St -> Resp c * St.

(** Running a program: its result, the final state of the service, and
    the calls it made, in order. *)
Fixpoint run {St A : Type} (h : Handler St) (p : Prog A) (st : St)
  : A * St * list Call :=
  match p with
  | Ret a => (a, st, [])
  | Vis c k =>
      let (r, st1) := h c st in
      let '(a, st2, tr) := run h (k r) st1 in
      (a, st2, c :: tr)
  end.

(** ** Option records

    Modelled from the spec: the option records of the operations,
    declared in the package's generated code, which is not among the
    sources.  Each carries the fields its operation reads: the object
    mode, the list mode, the I/O callback, each with its presence flag. *)

Module pairStorageCreate.
Record t : Type := { HasObjectMode : bool; ObjectMode : ObjectMode }.
End pairStorageCreate.

Module pairStorageDelete.
Record t : Type := { HasObjectMode : bool; ObjectMode : ObjectMode }.
End pairStorageDelete.

Module pairStorageStat.
Record t : Type := { HasObjectMode : bool; ObjectMode : ObjectMode }.
End pairStorageStat.

Module pairStorageList.
Record t : Type := { HasListMode : bool; ListMode : ListMode }.
End pairStorageList.

(** ** The listing cursor *)

Record objectPageStatus : Type := {
  prefix : string;
  maxKeys : Z;
  delimiter : string;
  marker : string
}.

Definition ContinuationToken (i : objectPageStatus) : string := marker i.

(** [input.marker = v] *)
Definition setMarker (i : objectPageStatus) (v : string) : objectPageStatus :=
  {| prefix := prefix i; maxKeys := maxKeys i; delimiter := delimiter i; marker := v |}.

(** [types.ObjectPage]: the cursor and the objects of the page. *)
Record ObjectPage : Type := {
  Status : objectPageStatus;
  Data : list Object
}.

(** ** The storage operations *)

Definition create (s : Storage) (path : string) (opt : pairStorageCreate.t)
  : option Object :=
  let rp := getAbsPath s path in
  if pairStorageCreate.HasObjectMode opt
     && ObjectModeMethods.IsDir (pairStorageCreate.ObjectMode opt) then
    if negb (VirtualDir (features s)) then None
    else
      let rp := rp ++ "/" in
      let o := newObject s true in
      let o := orMode o ModeDir in
      let o := setID o rp in
      let o := setPath o path in
      Some o
  else
    let o := newObject s false in
    let o := orMode o ModeRead in
    let o := setID o rp in
    let o := setPath o path in
    Some o.

Definition delete (s : Storage) (path : string) (opt : pairStorageDelete.t)
  : Prog (option error) :=
  let rp := getAbsPath s path in
  let deleteFile (rp : string) : Prog (option error) :=
    err <- client.DeleteFile rp ;;
    match err with
    | None => Ret None
    | Some (ServerError_value e) =>
        if Code e =? NoSuchKey then Ret None else Ret err
    | Some _ => Ret err
    end in
  if pairStorageDelete.HasObjectMode opt
     && ObjectModeMethods.IsDir (pairStorageDelete.ObjectMode opt) then
    if negb (VirtualDir (features s)) then
      Ret (Some (PairUnsupportedError (WithObjectMode (pairStorageDelete.ObjectMode opt))))
    else
      deleteFile (rp ++ "/")
  else
    deleteFile rp.

(** The loop over [output.CommonPrefixes] of [nextObjectPageByDir]. *)
Definition dirObject (s : Storage) (v : CommonPreInfo) : Object :=
  let o := newObject s true in
  let o := setID o (Prefix v) in
  let o := setPath o (getRelPath s (Prefix v)) in
  orMode o ModeDir.

Definition appendPrefixes (s : Storage) (vs : list CommonPreInfo)
  (data : list Object) : list Object :=
  fold_left (fun data v => (data ++ [dirObject s v])%list) vs data.

(** The loop over [output.Contents]: it stops at the first entry the
    formatter rejects, keeping what was appended before. *)
Fixpoint appendContents (s : Storage) (vs : list ObjectInfo)
  (data : list Object) : list Object * option error :=
  match vs with
  | [] => (data, None)
  | v :: vs' =>
      match formatFileObject s v with
      | inr err => (data, Some err)
      | inl o => appendContents s vs' (data ++ [o])%list
      end
  end.

Definition nextObjectPageByDir (s : Storage) (page : ObjectPage)
  : Prog (ObjectPage * option error) :=
  let input := Status page in
  r <- client.ListObjects (prefix input) (marker input) (delimiter input) (maxKeys input) ;;
  let (output, err) := r in
  match err with
  | Some _ => Ret (page, err)
  | None =>
      let data := appendPrefixes s (CommonPrefixes output) (Data page) in
      match appendContents s (Contents output) data with
      | (data, Some err) => Ret ({| Status := input; Data := data |}, Some err)
      | (data, None) =>
          if String.eqb (NextMarker output) "" then
            Ret ({| Status := input; Data := data |}, Some IterateDone)
          else if negb (IsTruncated output) then
            Ret ({| Status := input; Data := data |}, Some IterateDone)
          else
            Ret ({| Status := setMarker input (NextMarker output); Data := data |}, err)
      end
  end.

Definition nextObjectPageByPrefix (s : Storage) (page : ObjectPage)
  : Prog (ObjectPage * option error) :=
  let input := Status page in
  r <- client.ListObjects (prefix input) (marker input) (delimiter input) (maxKeys input) ;;
  let (output, err) := r in
  match err with
  | Some _ => Ret (page, err)
  | None =>
      match appendContents s (Contents output) (Data page) with
      | (data, Some err) => Ret ({| Status := input; Data := data |}, Some err)
      | (data, None) =>
          if String.eqb (NextMarker output) "" then
            Ret ({| Status := input; Data := data |}, Some IterateDone)
          else if negb (IsTruncated output) then
            Ret ({| Status := input; Data := data |}, Some IterateDone)
          else
            Ret ({| Status := setMarker input (NextMarker output); Data := data |}, err)
      end
  end.

(** [types.NextObjectFunc] and what [types.NewObjectIterator] keeps. *)
Definition NextObjectFunc : Type := ObjectPage -> Prog (ObjectPage * option error).

Record ObjectIterator : Type := {
  next : NextObjectFunc;
  o : ObjectPage
}.

Definition NewObjectIterator (next : NextObjectFunc) (status : objectPageStatus)
  : ObjectIterator :=
  {| next := next; o := {| Status := status; Data := [] |} |}.

(** [func (s *Storage) list(ctx, path, opt) (oi *ObjectIterator, err error)]
    ([list] itself is the name of the list type here). *)
Definition Storage_list (s : Storage) (path : string) (opt : pairStorageList.t)
  : ObjectIterator + error :=
  let input := {| maxKeys := 200; prefix := getAbsPath s path;
                  delimiter := ""; marker := "" |} in
  let ListMode := if negb (pairStorageList.HasListMode opt) then ListModePrefix
                  else pairStorageList.ListMode opt in
  if ListModeMethods.IsDir ListMode then
    let input := {| maxKeys := maxKeys input; prefix := prefix input;
                    delimiter := "/"; marker := marker input |} in
    inl (NewObjectIterator (nextObjectPageByDir s) input)
  else if ListModeMethods.IsPrefix ListMode then
    inl (NewObjectIterator (nextObjectPageByPrefix s) input)
  else
    inr (ListModeInvalidError ListMode).

(** [time.Parse(layout, value)] belongs to the Go runtime; [stat] takes
    it as a parameter. *)
Class TimeParser : Type := time_Parse : string -> string -> Time + error.

(** The header part of [stat]: each attribute is set when its header is
    present; a length or a date that does not parse ends the call. *)
Definition statHeaders `{TimeParser} (output : Header) (o : Object) : Object + error :=
  let value := Get output "Content-Length" in
  match (if String.eqb value "" then inl o
         else match strconv.ParseInt value with
              | inr err => inr err
              | inl length => inl (SetContentLength o length)
              end) with
  | inr err => inr err
  | inl o =>
      let value := Get output "Last-Modified" in
      match (if String.eqb value "" then inl o
             else match time_Parse time.RFC1123 value with
                  | inr err => inr err
                  | inl lastModified => inl (SetLastModified o lastModified)
                  end) with
      | inr err => inr err
      | inl o =>
          let value := Get output "Content-Type" in
          let o := if String.eqb value "" then o else SetContentType o value in
          let value := Get output "ETag" in
          let o := if String.eqb value "" then o else SetEtag o value in
          let sm := {| StorageClass := "" |} in
          let v := Get output "X-Ufile-Storage-Class" in
          let sm := if String.eqb v "" then sm else {| StorageClass := v |} in
          inl (SetSystemMetadata o sm)
      end
  end.

Definition stat `{TimeParser} (s : Storage) (path : string) (opt : pairStorageStat.t)
  : Prog (Object + error) :=
  let rp := getAbsPath s path in
  let dir := pairStorageStat.HasObjectMode opt
             && ObjectModeMethods.IsDir (pairStorageStat.ObjectMode opt) in
  let headFile (rp : string) : Prog (Object + error) :=
    err <- client.HeadFile rp ;;
    match err with
    | Some err => Ret (inr err)
    | None =>
        let o := newObject s true in
        let o := setID o rp in
        let o := setPath o path in
        let o := if dir then orMode o ModeDir else orMode o ModeRead in
        output <- client.LastResponseHeader ;;
        Ret (statHeaders output o)
    end in
  if dir then
    if negb (VirtualDir (features s)) then
      Ret (inr (PairUnsupportedError (WithObjectMode (pairStorageStat.ObjectMode opt))))
    else
      headFile (rp ++ "/")
  else
    headFile rp.

(** ** Readers, callbacks and [io.Copy] *)

(** A [func([]byte)] of the caller, by what it does to the record of the
    byte slices the caller has been shown. *)
Definition Callback : Type := string -> list string -> list string.

(** An [io.ReadCloser] value: the nil interface, a reader over a byte
    slice, or go-storage's [*iowrap.CallbackifyReadCloser]. *)
Inductive ReadCloser : Type :=
| nilReadCloser
| bytesReadCloser (b : string)
| CallbackifyReadCloser (r : ReadCloser) (fn : Callback).

Module iowrap.
Definition CallbackReadCloser (r : ReadCloser) (fn : Callback) : ReadCloser :=
  CallbackifyReadCloser r fn.
End iowrap.

(** A Go call either returns or panics. *)
Inductive outcome (A : Type) : Type :=
| Returned (a : A)
| Panicked.

Arguments Returned {A} a.
Arguments Panicked {A}.

Module io.

(** Reading a reader to its end: the bytes it delivers and what the
    callbacks on the way have recorded.  A method call on the nil
    interface panics; [CallbackifyReadCloser.Read] reads from the reader
    it wraps and then shows the slice to its callback. *)
Fixpoint ReadAll (rc : ReadCloser) (seen : list string)
  : outcome (string * list string) :=
  match rc with
  | nilReadCloser => Panicked
  | bytesReadCloser b => Returned (b, seen)
  | CallbackifyReadCloser r fn =>
      match ReadAll r seen with
      | Panicked => Panicked
      | Returned (p, seen') => Returned (p, fn p seen')
      end
  end.

(** The state around a copy: what the sink holds and what the caller's
    callback has been shown. *)
Record World : Type := { sink : string; seen : list string }.

(** [io.Copy(w, rc)]: everything read from [rc] is written to the sink,
    and the number of bytes is returned. *)
Definition Copy (w : World) (rc : ReadCloser)
  : outcome (Z * option error) * World :=
  match ReadAll rc (seen w) with
  | Panicked => (Panicked, w)
  | Returned (p, seen') =>
      (Returned (Z.of_nat (String.length p), None),
       {| sink := sink w ++ p; seen := seen' |})
  end.

End io.

Module pairStorageRead.
Record t : Type := { HasIoCallback : bool; IoCallback : Callback }.
End pairStorageRead.

(** [time.Second], a [time.Duration] in nanoseconds. *)
Definition Second : Z := 1000000000.

(** [func (s *Storage) read(ctx, path, w, opt) (n int64, err error)].
    The first callback assigns [s.client.LastResponseBody] to its own
    parameter, which changes nothing outside the callback. *)
Definition read (s : Storage) (path : string) (w : io.World) (opt : pairStorageRead.t)
  : Prog (outcome (Z * option error) * io.World) :=
  let rp := getAbsPath s path in
  reqUrl <- client.GetPrivateURL rp (3600 * Second) ;;
  err <- client.Download reqUrl ;;
  match err with
  | Some _ => Ret (Returned (0, err), w)
  | None =>
      let rc := nilReadCloser in
      let rc := iowrap.CallbackReadCloser rc (fun bytes seen => seen) in
      let rc := if pairStorageRead.HasIoCallback opt
                then iowrap.CallbackReadCloser rc (pairStorageRead.IoCallback opt)
                else rc in
      Ret (io.Copy w rc)
  end.

(** ** The iteration protocol *)

(** What a listing comes to. *)
Inductive Listing : Type :=
| Listed (pages : list (list Object))
| Failed (err : error)
| OutOfFuel.

(** Modelled from the spec: the iteration protocol of the storage
    abstraction ([types.ObjectIterator] of go-storage, which is not part
    of this package).  The engine supplies the page-fetch callback; the
    protocol invokes it repeatedly, each time on an emptied page buffer
    and the cursor the previous fetch left, until the callback returns
    the iteration-done sentinel; any other error fails the listing.
    [fuel] bounds the number of fetches. *)
Fixpoint iterate (fuel : nat) (next : NextObjectFunc) (status : objectPageStatus)
  (pages : list (list Object)) : Prog Listing :=
  match fuel with
  | O => Ret OutOfFuel
  | S fuel' =>
      r <- next {| Status := status; Data := [] |} ;;
      match snd r with
      | None => iterate fuel' next (Status (fst r)) (pages ++ [Data (fst r)])%list
      | Some IterateDone => Ret (Listed (pages ++ [Data (fst r)])%list)
      | Some err => Ret (Failed err)
      end
  end.

Definition drain (fuel : nat) (it : ObjectIterator) : Prog Listing :=
  iterate fuel (next it) (Status (o it)) [].

(** ** A scripted service for examples

    The service keeps a set of live keys, a script of list responses
    that it plays one per [ListObjects] call, and the header and body
    of its last response. *)

Record Fake : Type := {
  keys : list string;
  script : list ListObjectsResponse;
  header : Header;
  body : string
}.

Definition noResponse : ListObjectsResponse :=
  {| IsTruncated := false; NextMarker := ""; Contents := []; CommonPrefixes := [] |}.

Definition noSuchKey : error :=
  ServerError_value {| retCode := NoSuchKey; message := "file not exist" |}.

Definition fake : Handler Fake := fun c =>
  match c as c' return Fake -> Resp c' * Fake with
  | DeleteFile k => fun st =>
      if existsb (String.eqb k) (keys st) then
        (None, {| keys := filter (fun k' => negb (String.eqb k k')) (keys st);
                  script := script st; header := header st; body := body st |})
      else (Some noSuchKey, st)
  | HeadFile k => fun st =>
      if existsb (String.eqb k) (keys st) then (None, st) else (Some noSuchKey, st)
  | ListObjects _ _ _ _ => fun st =>
      match script st with
      | [] => ((noResponse, Some (errorString "no more pages")), st)
      | r :: rest =>
          ((r, None), {| keys := keys st; script := rest;
                         header := header st; body := body st |})
      end
  | GetPrivateURL k _ => fun st => ("http://us3.test/" ++ k, st)
  | Download _ => fun st => (None, st)
  | LastResponseHeader => fun st => (header st, st)
  | LastResponseBody => fun st => (body st, st)
  end.

(** ** Instances of the two parameters, for examples *)

(** One choice of error texts. *)
Definition plainFormats : ErrorFormats :=
  {| ServerError_Error := fun e => message e;
     PairUnsupportedError_Error := fun _ => "pair unsupported";
     ListModeInvalidError_Error := fun _ => "list mode invalid";
     NumError_Error := fun f n c =>
       "strconv." ++ f ++ ": parsing " ++ n ++ ": "
       ++ match c with
          | ErrSyntax => "invalid syntax"
          | ErrRange => "value out of range"
          end |}.

(** A reader of the fixed-width HTTP-date
    [Www, DD Mmm YYYY HH:MM:SS GMT], the form the backend sends. *)
Module httpdate.

Fixpoint number (s : string) (n : Z) : option Z :=
  match s with
  | EmptyString => Some n
  | String c s' =>
      match strconv.digit c with
      | None => None
      | Some d => number s' (n * 10 + d)
      end
  end.

Definition field (from len : nat) (s : string) : option Z :=
  number (substring from len s) 0.

Fixpoint index (x : string) (l : list string) (i : Z) : option Z :=
  match l with
  | [] => None
  | y :: l' => if String.eqb x y then Some i else index x l' (i + 1)
  end.

Definition shortDayNames : list string :=
  ["Sun"; "Mon"; "Tue"; "Wed"; "Thu"; "Fri"; "Sat"].

Definition shortMonthNames : list string :=
  ["Jan"; "Feb"; "Mar"; "Apr"; "May"; "Jun";
   "Jul"; "Aug"; "Sep"; "Oct"; "Nov"; "Dec"].

Definition isLeap (y : Z) : bool :=
  (y mod 4 =? 0) && (negb (y mod 100 =? 0) || (y mod 400 =? 0)).

Definition daysIn (m y : Z) : Z :=
  if m =? 2 then (if isLeap y then 29 else 28)
  else if (m =? 4) || (m =? 6) || (m =? 9) || (m =? 11) then 30
  else 31.

(** Days from 1970-01-01 to the civil date [y-m-d]. *)
Definition daysFromCivil (y m d : Z) : Z :=
  let y' := if m <=? 2 then y - 1 else y in
  let era := y' / 400 in
  let yoe := y' - era * 400 in
  let mp := if 2 <? m then m - 3 else m + 9 in
  let doy := (153 * mp + 2) / 5 + d - 1 in
  let doe := yoe * 365 + yoe / 4 - yoe / 100 + doy in
  era * 146097 + doe - 719468.

Definition bad (value : string) : Time + error :=
  inr (errorString ("parsing time " ++ value)).

Definition parse (value : string) : Time + error :=
  if negb (Nat.eqb (String.length value) 29) then bad value else
  match index (substring 0 3 value) shortDayNames 0,
        field 5 2 value,
        index (substring 8 3 value) shortMonthNames 1,
        field 12 4 value,
        field 17 2 value, field 20 2 value, field 23 2 value with
  | Some _, Some d, Some m, Some y, Some hh, Some mm, Some ss =>
      if String.eqb (substring 3 2 value) ", "
         && String.eqb (substring 7 1 value) " "
         && String.eqb (substring 11 1 value) " "
         && String.eqb (substring 16 1 value) " "
         && String.eqb (substring 19 1 value) ":"
         && String.eqb (substring 22 1 value) ":"
         && String.eqb (substring 25 1 value) " "
         && (String.eqb (substring 26 3 value) "GMT"
             || String.eqb (substring 26 3 value) "UTC")
         && (1 <=? d) && (d <=? daysIn m y)
         && (hh <? 24) && (mm <? 60) && (ss <? 60)
      then inl (time.Unix (daysFromCivil y m d * 86400 + hh * 3600 + mm * 60 + ss) 0)
      else bad value
  | _, _, _, _, _, _, _ => bad value
  end.

End httpdate.

Definition httpdateParser : TimeParser :=
  fun layout value =>
    if String.eqb layout time.RFC1123 then httpdate.parse value
    else inr (errorString "unknown layout").

(** Two backend errors for the examples: the access-denied code held
    by pointer, and a plain error without a code. *)
Definition deniedPointer : error :=
  ServerError_pointer {| retCode := AccessDenied; message := "access denied" |}.

Definition boom : error := errorString "boom".

(** The spec's delete scenario: the same delete issued twice in sequence. *)
Definition deleteTwice (s : Storage) (path : string) (opt : pairStorageDelete.t)
  : Prog (option error * option error) :=
  r1 <- delete s path opt ;;
  r2 <- delete s path opt ;;
  Ret (r1, r2).

(** A storage rooted at [/data/] with virtual directories, and a
    service holding one file and one directory marker. *)
Definition dataStore : Storage :=
  {| bucket := "bucket"; workDir := "/data/"; features := {| VirtualDir := true |} |}.

Definition oneFile : Fake :=
  {| keys := ["data/a.txt"; "data/dir/"]; script := [];
     header := fun key =>
       if String.eqb key "Content-Length" then "42"
       else if String.eqb key "Last-Modified" then "Mon, 02 Jan 2006 15:04:05 GMT"
       else "";
     body := "hello" |}.

Definition fileMode : pairStorageDelete.t :=
  {| pairStorageDelete.HasObjectMode := false; pairStorageDelete.ObjectMode := 0 |}.

(** ** Vocabulary for the listing properties *)

(** The formatter applied to every content entry of a response: all the
    objects, or the first error. *)
Fixpoint formatAll (s : Storage) (vs : list ObjectInfo) : list Object + error :=
  match vs with
  | [] => inl []
  | v :: vs' =>
      match formatFileObject s v with
      | inr err => inr err
      | inl o =>
          match formatAll s vs' with
          | inr err => inr err
          | inl os => inl (o :: os)
          end
      end
  end.

Definition formats (s : Storage) (vs : list ObjectInfo) : bool :=
  match formatAll s vs with inl _ => true | inr _ => false end.

(** The response ends the listing: its continuation token is empty or
    its truncated flag is false. *)
Definition final (r : ListObjectsResponse) : bool :=
  String.eqb (NextMarker r) "" || negb (IsTruncated r).

(** The objects a response contributes to a page, in each mode. *)
Definition filesOf (s : Storage) (r : ListObjectsResponse) : list Object :=
  match formatAll s (Contents r) with inl files => files | inr _ => [] end.

Definition prefixPage (s : Storage) (r : ListObjectsResponse) : list Object :=
  filesOf s r.

Definition dirPage (s : Storage) (r : ListObjectsResponse) : list Object :=
  (map (dirObject s) (CommonPrefixes r) ++ filesOf s r)%list.

(** A truncated response with a non-empty continuation token. *)
Definition continues (r : ListObjectsResponse) : Prop :=
  IsTruncated r = true /\ NextMarker r <> "".

(** The [ListObjects] call a page fetch makes from the cursor of [page]. *)
Definition listCall (page : ObjectPage) : Call :=
  ListObjects (prefix (Status page)) (marker (Status page))
    (delimiter (Status page)) (maxKeys (Status page)).

(** The [ListObjects] calls of a listing whose cursor starts at
    [status] and then follows the given continuation tokens. *)
Definition requests (status : objectPageStatus) (tokens : list string) : list Call :=
  map (fun m => ListObjects (prefix status) m (delimiter status) (maxKeys status))
      (marker status :: tokens).

(** The service state after it has played its whole script. *)
Definition played (st : Fake) : Fake :=
  {| keys := keys st; script := []; header := header st; body := body st |}.

(** A script of three truncated pages, the second one empty, and a last
    page that is not truncated. *)
Definition entry (key : string) : ObjectInfo :=
  {| Key := key; Size := "42"; LastModified := 1000000000000;
     Etag := "e"; ObjectInfo_StorageClass := "" |}.

Definition fourPages : Fake :=
  {| keys := [];
     script :=
       [ {| IsTruncated := true; NextMarker := "m1";
            Contents := [entry "data/a"; entry "data/b"];
            CommonPrefixes := [ {| Prefix := "data/d/" |} ] |};
         {| IsTruncated := true; NextMarker := "m2";
            Contents := []; CommonPrefixes := [] |};
         {| IsTruncated := true; NextMarker := "m3";
            Contents := [entry "data/c"]; CommonPrefixes := [] |};
         {| IsTruncated := false; NextMarker := "m4";
            Contents := [entry "data/e"]; CommonPrefixes := [] |} ];
     header := fun _ => ""; body := "" |}.

Definition dirList : pairStorageList.t :=
  {| pairStorageList.HasListMode := true; pairStorageList.ListMode := ListModeDir |}.

Definition defaultList : pairStorageList.t :=
  {| pairStorageList.HasListMode := false; pairStorageList.ListMode := 0 |}.

(** A page fetch that behaves on the scripted service as both engines
    do: one call, one response consumed, the page and the cursor as the
    response dictates. *)
Definition fetches (s : Storage) (next : NextObjectFunc)
  (pageOf : ListObjectsResponse -> list Object) : Prop :=
  forall (status : objectPageStatus) (st : Fake) (r : ListObjectsResponse)
         (rest : list ListObjectsResponse),
    script st = r :: rest ->
    formats s (Contents r) = true ->
    run fake (next {| Status := status; Data := [] |}) st =
    (({| Status := if final r then status else setMarker status (NextMarker r);
         Data := pageOf r |},
      if final r then Some IterateDone else None),
     {| keys := keys st; script := rest; header := header st; body := body st |},
     [ListObjects (prefix status) (marker status) (delimiter status) (maxKeys status)]).

(** The object [stat] has built when it turns to the response header. *)
Definition statObject (s : Storage) (path : string) (opt : pairStorageStat.t)
  (rp : string) : Object :=
  let o := newObject s true in
  let o := setID o rp in
  let o := setPath o path in
  if pairStorageStat.HasObjectMode opt
     && ObjectModeMethods.IsDir (pairStorageStat.ObjectMode opt)
  then orMode o ModeDir else orMode o ModeRead.

Definition statFile : pairStorageStat.t :=
  {| pairStorageStat.HasObjectMode := false; pairStorageStat.ObjectMode := 0 |}.


Definition createDir : pairStorageCreate.t :=
  {| pairStorageCreate.HasObjectMode := true; pairStorageCreate.ObjectMode := ModeDir |}.

Definition deleteDir : pairStorageDelete.t :=
  {| pairStorageDelete.HasObjectMode := true; pairStorageDelete.ObjectMode := ModeDir |}.

(** A caller's callback that records every slice it is shown. *)
Definition observe : Callback := fun p seen => (seen ++ [p])%list.

Definition withCallback : pairStorageRead.t :=
  {| pairStorageRead.HasIoCallback := true; pairStorageRead.IoCallback := observe |}.

Definition emptyWorld : io.World := {| io.sink := ""; io.seen := [] |}.

(** ** The write operation *)

(** The readers [write] builds over the caller's [io.Reader], which is
    given by the bytes it will deliver: [io.LimitReader(r, n)] and
    go-storage's [*iowrap.CallbackifyReader]. *)
Inductive Reader : Type :=
| LimitedReader (R : string) (N : Z)
| CallbackifyReader (r : Reader) (fn : Callback).

(** The first [n] bytes of [b]; none when [n <= 0], as a
    [LimitedReader] with [N <= 0] reports end of file at once. *)
Definition firstBytes (n : Z) (b : string) : string :=
  if n <=? 0 then "" else substring 0 (Z.to_nat n) b.

(** One [Read] into a buffer of [len] bytes: the bytes read, whether
    the reader reported [io.EOF], the reader afterwards, and the
    callback's record.  The caller's reader fills the buffer it is given
    while it has bytes and reports end of file with no bytes once it has
    none, as a [bytes.Reader] does.  [LimitedReader.Read] reports end of
    file when [N <= 0], otherwise cuts the buffer to [N] bytes, reads
    from [R] and takes the count off [N].  [CallbackifyReader.Read]
    reads from the reader it wraps and then calls the callback on the
    slice read, after every read, the empty ones included. *)
Fixpoint Read (r : Reader) (len : nat) (seen : list string)
  : (string * bool) * Reader * list string :=
  match r with
  | LimitedReader R N =>
      if N <=? 0 then (("", true), r, seen)
      else
        let len := Nat.min len (Z.to_nat N) in
        match R with
        | EmptyString => (("", true), r, seen)
        | _ =>
            let p := substring 0 len R in
            ((p, false),
             LimitedReader (strings.from len R) (N - Z.of_nat (String.length p)),
             seen)
        end
  | CallbackifyReader r' fn =>
      let '(c, r'', seen') := Read r' len seen in
      (c, CallbackifyReader r'' fn, fn (fst c) seen')
  end.

(** A consumer's successive reads, with the buffer sizes it chose. *)
Fixpoint reads (r : Reader) (lens : list nat) (seen : list string)
  : list (string * bool) * Reader * list string :=
  match lens with
  | [] => ([], r, seen)
  | len :: lens' =>
      let '(c, r', seen') := Read r len seen in
      let '(cs, r'', seen'') := reads r' lens' seen' in
      (c :: cs, r'', seen'')
  end.

(** The bytes of a sequence of reads, joined. *)
Definition joined (cs : list (string * bool)) : string :=
  fold_right (fun c acc => fst c ++ acc) "" cs.

(** Reading with one buffer size until end of file, at most [fuel]
    times. *)
Fixpoint drainReader (fuel len : nat) (r : Reader) (seen : list string)
  : string * list string :=
  match fuel with
  | O => ("", seen)
  | S fuel' =>
      let '(c, r', seen') := Read r len seen in
      if snd c then (fst c, seen')
      else let (q, seen'') := drainReader fuel' len r' seen' in (fst c ++ q, seen'')
  end.

Module pairStorageWrite.
Record t : Type := { HasIoCallback : bool; IoCallback : Callback }.
End pairStorageWrite.

(** [func (s *Storage) write(ctx, path, r, size, opt) (n int64, err error)].
    [IOPut] takes an [io.Reader], which the events of [Call] do not
    carry: the SDK method is a parameter here, a transition of the
    service's state. *)
Definition write {St : Type}
  (IOPut : Reader -> string -> string -> St -> option error * St)
  (s : Storage) (path : string) (r : string) (size : Z)
  (opt : pairStorageWrite.t) (st : St) : (Z * option error) * St :=
  let rp := getAbsPath s path in
  let r := LimitedReader r size in
  let r := if pairStorageWrite.HasIoCallback opt
           then CallbackifyReader r (pairStorageWrite.IoCallback opt)
           else r in
  let (err, st') := IOPut r rp "" st in
  match err with
  | Some _ => ((0, err), st')
  | None => ((size, None), st')
  end.

(** ** Construction *)

(** [credential.Provider] and [endpoint.Endpoint] of go-storage, by what
    [newServicer] reads from them. *)
Module credential.
Record Provider : Type := { Protocol : string; Hmac : string * string }.
Definition ProtocolHmac : string := "hmac".
End credential.

Module endpoint.
Record Endpoint : Type := { Protocol : string; HTTP : string; HTTPS : string }.
Definition ProtocolHTTP : string := "http".
Definition ProtocolHTTPS : string := "https".
End endpoint.

(** [us3.Config] *)
Record Config : Type := {
  PublicKey : string;
  PrivateKey : string;
  FileHost : string;
  BucketHost : string
}.

(** Modelled from the spec: the parsed construction options, declared in
    the package's generated code, which is not among the sources: the
    credential and endpoint of a service; the bucket name, the optional
    working directory and the optional feature flags of a storage. *)
Module pairServiceNew.
Record t : Type := { Credential : string; Endpoint : string }.
End pairServiceNew.

Module pairStorageNew.
Record t : Type := {
  Name : string;
  HasWorkDir : bool;
  WorkDir : string;
  HasStorageFeatures : bool;
  StorageFeatures : StorageFeatures
}.
End pairStorageNew.

(** The two service pairs [newServicer] can reject. *)
Inductive ServicePair : Type :=
| WithCredential (v : string)
| WithEndpoint (v : string).

(** What a construction error carries: an [error] as above, or a
    [services.PairUnsupportedError] for a service pair. *)
Inductive InitCause : Type :=
| cause (err : error)
| servicePairUnsupported (pair : ServicePair).

(** [formatError] on a construction error.  A
    [services.PairUnsupportedError] carries the internal-error marker
    and is returned as it is. *)
Definition formatCause `{ErrorFormats} (c : InitCause) : InitCause :=
  match c with
  | cause err => cause (formatError err)
  | servicePairUnsupported p => servicePairUnsupported p
  end.

(** Modelled from the spec: the package constant [Type], declared in
    generated code: the name of this backend. *)
Definition Type_ : string := "us3".

(** [services.InitError] *)
Record InitError (Pairs : Type) : Type := {
  Op : string;
  InitError_Type : string;
  Err : InitCause;
  InitError_Pairs : Pairs
}.

(** [type Service struct]: the SDK handle.  [defaultPairs] and
    [features] are read by no function of the sources. *)
Record Service (Client : Type) : Type := { service : Client }.

Section Construction.

(** The pair list, the SDK handle, the generated pair parsers,
    go-storage's credential and endpoint parsers and the SDK's
    [NewFileRequest] are parameters. *)
Variables Pairs Client : Type.
Variable parsePairServiceNew : Pairs -> pairServiceNew.t + error.
Variable parsePairStorageNew : Pairs -> pairStorageNew.t + error.
Variable credential_Parse : string -> credential.Provider + error.
Variable endpoint_Parse : string -> endpoint.Endpoint + error.
Variable NewFileRequest : Config -> Client + error.
Context {F : ErrorFormats}.

(** The body of [newServicer], before the deferred wrapping. *)
Definition newServicer_body (pairs : Pairs) : Service Client + InitCause :=
  match parsePairServiceNew pairs with
  | inr err => inr (cause err)
  | inl opt =>
      match credential_Parse (pairServiceNew.Credential opt) with
      | inr err => inr (cause err)
      | inl cp =>
          if negb (String.eqb (credential.Protocol cp) credential.ProtocolHmac) then
            inr (servicePairUnsupported (WithCredential (pairServiceNew.Credential opt)))
          else
            let (ak, sk) := credential.Hmac cp in
            match endpoint_Parse (pairServiceNew.Endpoint opt) with
            | inr err => inr (cause err)
            | inl ep =>
                match (if String.eqb (endpoint.Protocol ep) endpoint.ProtocolHTTP
                       then inl (endpoint.HTTP ep)
                       else if String.eqb (endpoint.Protocol ep) endpoint.ProtocolHTTPS
                       then inl (endpoint.HTTPS ep)
                       else inr (servicePairUnsupported
                                   (WithEndpoint (pairServiceNew.Endpoint opt)))) with
                | inr c => inr c
                | inl url =>
                    let config := {| PublicKey := ak; PrivateKey := sk;
                                     FileHost := url; BucketHost := "api.ucloud.cn" |} in
                    match NewFileRequest config with
                    | inr err => inr (cause err)
                    | inl c => inl {| service := c |}
                    end
                end
            end
      end
  end.

(** [func newServicer(pairs ...types.Pair) (srv *Service, err error)]:
    the deferred function turns every error into a [services.InitError]. *)
Definition newServicer (pairs : Pairs) : Service Client + InitError Pairs :=
  match newServicer_body pairs with
  | inl srv => inl srv
  | inr err =>
      inr {| Op := "new_servicer"; InitError_Type := Type_;
             Err := formatCause err; InitError_Pairs := pairs |}
  end.

(** [func (s *Service) newStorage(pairs ...types.Pair) (store *Storage, err error)] *)
Definition newStorage (s : Service Client) (pairs : Pairs) : Storage + error :=
  match parsePairStorageNew pairs with
  | inr err => inr err
  | inl opt =>
      let store := {| bucket := pairStorageNew.Name opt; workDir := "/";
                      features := {| VirtualDir := false |} |} in
      let store := if pairStorageNew.HasWorkDir opt
                   then {| bucket := bucket store; workDir := pairStorageNew.WorkDir opt;
                           features := features store |}
                   else store in
      let store := if pairStorageNew.HasStorageFeatures opt
                   then {| bucket := bucket store; workDir := workDir store;
                           features := pairStorageNew.StorageFeatures opt |}
                   else store in
      inl store
  end.

(** [func newServicerAndStorager(pairs ...types.Pair) (srv *Service, store *Storage, err error)] *)
Definition newServicerAndStorager (pairs : Pairs)
  : (Service Client * Storage) + InitError Pairs :=
  match newServicer pairs with
  | inr err => inr err
  | inl srv =>
      match newStorage srv pairs with
      | inr err =>
          inr {| Op := "new_storager"; InitError_Type := Type_;
                 Err := cause (formatError err); InitError_Pairs := pairs |}
      | inl store => inl (srv, store)
      end
  end.

(** [func NewStorager(pairs ...types.Pair) (types.Storager, error)] *)
Definition NewStorager (pairs : Pairs) : Storage + InitError Pairs :=
  match newServicerAndStorager pairs with
  | inr err => inr err
  | inl (_, store) => inl store
  end.

End Construction.

(** Parsers and a client constructor for the examples: the pair list is
    the parsed options themselves, a credential is [protocol:key], an
    endpoint is its protocol. *)
Definition examplePairs : Type := (pairServiceNew.t * pairStorageNew.t)%type.

Definition exampleCredential (v : string) : credential.Provider + error :=
  if String.eqb v "" then inr (errorString "empty credential")
  else inl {| credential.Protocol := substring 0 4 v;
              credential.Hmac := (substring 5 2 v, substring 8 2 v) |}.

Definition exampleEndpoint (v : string) : endpoint.Endpoint + error :=
  if String.eqb v "" then inr (errorString "empty endpoint")
  else inl {| endpoint.Protocol := v;
              endpoint.HTTP := "http://cn-bj.test"; endpoint.HTTPS := "https://cn-bj.test" |}.

Definition exampleClient (c : Config) : Config + error := inl c.

Definition bucketOptions : pairStorageNew.t :=
  {| pairStorageNew.Name := "bucket"; pairStorageNew.HasWorkDir := false;
     pairStorageNew.WorkDir := ""; pairStorageNew.HasStorageFeatures := false;
     pairStorageNew.StorageFeatures := {| VirtualDir := true |} |}.

(** An [IOPut] for the examples: it reads the reader to its end through
    a two-byte buffer, stores the bytes as the body of the last request
    and records the key. *)
Definition examplePut (r : Reader) (key mime : string) (st : Fake)
  : option error * Fake :=
  (None, {| keys := key :: keys st; script := script st;
            header := header st; body := fst (drainReader 64 2 r []) |}).

(** A service whose [DeleteFile] reports a missing key with a
    [*uerr.ServerError], the pointer form, and otherwise behaves as
    [fake]. *)
Definition noSuchKeyPointer : error :=
  ServerError_pointer {| retCode := NoSuchKey; message := "file not exist" |}.

Definition fakeByPointer : Handler Fake := fun c =>
  match c as c' return Fake -> Resp c' * Fake with
  | DeleteFile k => fun st =>
      if existsb (String.eqb k) (keys st) then fake (DeleteFile k) st
      else (Some noSuchKeyPointer, st)
  | c' => fake c'
  end.

(** A storage without virtual directories. *)
Definition flatStore : Storage :=
  {| bucket := "bucket"; workDir := "/data/"; features := {| VirtualDir := false |} |}.

(** A truncated response whose second entry has a malformed size. *)
Definition badEntry : ObjectInfo :=
  {| Key := "data/bad"; Size := "4x2"; LastModified := 0;
     Etag := ""; ObjectInfo_StorageClass := "" |}.

Definition badResponse : ListObjectsResponse :=
  {| IsTruncated := true; NextMarker := "m1";
     Contents := [entry "data/a"; badEntry; entry "data/c"];
     CommonPrefixes := [ {| Prefix := "data/d/" |} ] |}.

Definition badPage : Fake :=
  {| keys := []; script := [badResponse]; header := fun _ => ""; body := "" |}.

Definition firstPage : ObjectPage :=
  {| Status := {| prefix := "data/"; maxKeys := 200; delimiter := "/"; marker := "" |};
     Data := [] |}.

Definition plainWrite : pairStorageWrite.t :=
  {| pairStorageWrite.HasIoCallback := true; pairStorageWrite.IoCallback := observe |}.

Definition exampleServiceParse (p : examplePairs) : pairServiceNew.t + error :=
  inl (fst p).

Definition exampleStorageParse (p : examplePairs) : pairStorageNew.t + error :=
  inl (snd p).

Definition hmacPairs : examplePairs :=
  ({| pairServiceNew.Credential := "hmac:ak:sk"; pairServiceNew.Endpoint := "https" |},
   bucketOptions).

Definition filePairs : examplePairs :=
  ({| pairServiceNew.Credential := "file:ak:sk"; pairServiceNew.Endpoint := "https" |},
   bucketOptions).

Definition ftpPairs : examplePairs :=
  ({| pairServiceNew.Credential := "hmac:ak:sk"; pairServiceNew.Endpoint := "ftp" |},
   bucketOptions).

(** The two readers [write] can build over the input. *)
Definition writeReader (cb : option Callback) (R : string) (N : Z) : Reader :=
  match cb with
  | Some fn => CallbackifyReader (LimitedReader R N) fn
  | None => LimitedReader R N
  end.

(** * Properties *)

(** ** Path resolver *)

Lemma HasPrefix_app (p s : string) : strings.HasPrefix (p ++ s) p = true.
Proof.
  induction p as [|c p IH]; simpl; [reflexivity|].
  now rewrite Ascii.eqb_refl, IH.
Qed.

Lemma from_app (p s : string) : strings.from (String.length p) (p ++ s) = s.
Proof.
  induction p as [|c p IH]; simpl; [reflexivity|exact IH].
Qed.

Lemma TrimPrefix_app (p s : string) : strings.TrimPrefix (p ++ s) p = s.
Proof.
  unfold strings.TrimPrefix. now rewrite HasPrefix_app, from_app.
Qed.

Lemma TrimPrefix_absent (s p : string) :
  strings.HasPrefix s p = false -> strings.TrimPrefix s p = s.
Proof.
  unfold strings.TrimPrefix. now intros ->.
Qed.

(** C7.  The path resolver: [getAbsPath] prepends the working directory
    with its leading slash stripped, [getRelPath] undoes it on every
    path, and [getRelPath] leaves a key that does not start with that
    prefix as it is.  Both are total functions to strings. *)
Theorem path_resolver_roundtrip (s : Storage) (p : string) :
  getAbsPath s p = strings.TrimPrefix (workDir s) "/" ++ p
  /\ getRelPath s (getAbsPath s p) = p
  /\ (forall key : string,
        strings.HasPrefix key (strings.TrimPrefix (workDir s) "/") = false ->
        getRelPath s key = key).
Proof.
  unfold getAbsPath, getRelPath. repeat split.
  - apply TrimPrefix_app.
  - intros key Hkey. now apply TrimPrefix_absent.
Qed.

Lemma path_resolver_roundtrip_witness :
  getRelPath {| bucket := "b"; workDir := "/data/"; features := {| VirtualDir := true |} |}
    "data/a/b.txt" = "a/b.txt"
  /\ getRelPath {| bucket := "b"; workDir := "/data/"; features := {| VirtualDir := true |} |}
       "other/c" = "other/c".
Proof.
  pose proof (path_resolver_roundtrip
                {| bucket := "b"; workDir := "/data/"; features := {| VirtualDir := true |} |}
                "a/b.txt") as (_ & Hround & Habsent).
  split.
  - exact Hround.
  - apply Habsent. reflexivity.
Defined.

(** ** Error normalizer *)

Section Normalizer.
Context {F : ErrorFormats}.

Lemma formatError_internal (err : error) :
  services.InternalError err = true -> formatError err = err.
Proof. unfold formatError. now intros ->. Qed.

(** Outside the internal errors the result is always a fresh
    [*fmt.wrapError] around one of the three sentinels. *)
Lemma formatError_shape (err : error) :
  services.InternalError err = false ->
  exists kind : error,
    (kind = services.ErrPermissionDenied \/ kind = services.ErrObjectNotExist
     \/ kind = services.ErrUnexpected)
    /\ formatError err = wrapError (Error kind ++ ", " ++ Error err) kind.
Proof.
  intros Hint. unfold formatError. rewrite Hint.
  destruct err; try (exists services.ErrUnexpected; split; [tauto | reflexivity]).
  destruct (Code e =? AccessDenied).
  - exists services.ErrPermissionDenied. split; [tauto | reflexivity].
  - destruct (Code e =? NoSuchKey).
    + exists services.ErrObjectNotExist. split; [tauto | reflexivity].
    + exists services.ErrUnexpected. split; [tauto | reflexivity].
Qed.

Lemma formatError_not_internal (err : error) :
  services.InternalError err = false ->
  services.InternalError (formatError err) = false.
Proof.
  intros Hint. destruct (formatError_shape err Hint) as (kind & _ & ->). reflexivity.
Qed.

End Normalizer.

Lemma append_length (a b : string) :
  String.length (a ++ b) = (String.length a + String.length b)%nat.
Proof. induction a as [|c a IH]; simpl; [reflexivity | now rewrite IH]. Qed.

(** A text is never its own proper extension. *)
Lemma append_neq_self (a b : string) : a <> "" -> a ++ b <> b.
Proof.
  intros Ha Heq. apply (f_equal String.length) in Heq.
  rewrite append_length in Heq. destruct a; [congruence | simpl in Heq; lia].
Qed.

(** C3 (as stated): normalizing twice does wrap twice.  The first
    result for an access-denied backend error wraps the
    permission-denied sentinel; normalizing that result again gives a
    different error, which wraps the unexpected sentinel. *)
Lemma formatError_twice_wraps_twice :
  errors.Unwrap (@formatError plainFormats deniedPointer)
    = Some services.ErrPermissionDenied
  /\ errors.Unwrap (@formatError plainFormats (@formatError plainFormats deniedPointer))
     = Some services.ErrUnexpected
  /\ @formatError plainFormats (@formatError plainFormats deniedPointer)
     <> @formatError plainFormats deniedPointer.
Proof.
  repeat split. vm_compute. discriminate.
Qed.

(** C3 (amended).  [formatError] returns an error that carries the
    internal-error marker unchanged.  A [*uerr.ServerError] is wrapped
    under the permission-denied sentinel when its code is
    [AccessDenied], under the object-not-exist sentinel when it is
    [NoSuchKey], and under the unexpected sentinel for any other code; an
    error that is neither internal nor a server error is wrapped under
    the unexpected sentinel.  The wrapper itself does not carry the
    marker, so a second application wraps it again, as unexpected. *)
Theorem formatError_mapping (F : ErrorFormats) :
  (forall err : error,
      services.InternalError err = true -> formatError err = err)
  /\ (forall e : ServerError,
        Code e = AccessDenied ->
        errors.Unwrap (formatError (ServerError_pointer e))
          = Some services.ErrPermissionDenied)
  /\ (forall e : ServerError,
        Code e = NoSuchKey ->
        errors.Unwrap (formatError (ServerError_pointer e))
          = Some services.ErrObjectNotExist)
  /\ (forall e : ServerError,
        Code e <> AccessDenied -> Code e <> NoSuchKey ->
        errors.Unwrap (formatError (ServerError_pointer e))
          = Some services.ErrUnexpected)
  /\ (forall err : error,
        services.InternalError err = false ->
        (forall e, err <> ServerError_pointer e) ->
        (forall e, err <> ServerError_value e) ->
        errors.Unwrap (formatError err) = Some services.ErrUnexpected)
  /\ (forall err : error,
        services.InternalError err = false ->
        services.InternalError (formatError err) = false
        /\ errors.Unwrap (formatError (formatError err))
           = Some services.ErrUnexpected).
Proof.
  split; [exact formatError_internal|].
  split; [intros e He; unfold formatError; simpl; now rewrite He|].
  split; [intros e He; unfold formatError; simpl; now rewrite He|].
  split.
  { intros e H1 H2. unfold formatError. simpl.
    destruct (Z.eqb_spec (Code e) AccessDenied); [contradiction|].
    destruct (Z.eqb_spec (Code e) NoSuchKey); [contradiction|]. reflexivity. }
  split.
  { intros err Hint Hp Hv. unfold formatError. rewrite Hint.
    destruct err; try reflexivity. now elim (Hp e). }
  intros err Hint. split; [now apply formatError_not_internal|].
  destruct (formatError_shape err Hint) as (kind & _ & ->). reflexivity.
Qed.

Lemma formatError_mapping_witness :
  @formatError plainFormats services.ErrObjectNotExist = services.ErrObjectNotExist
  /\ errors.Unwrap (@formatError plainFormats deniedPointer)
     = Some services.ErrPermissionDenied
  /\ errors.Unwrap (@formatError plainFormats boom) = Some services.ErrUnexpected.
Proof.
  pose proof (formatError_mapping plainFormats) as (Hint & Hden & _ & _ & Hplain & _).
  split; [apply Hint; reflexivity|].
  split; [apply Hden; reflexivity|].
  apply Hplain; [reflexivity | discriminate | discriminate].
Defined.

(** C8 (as stated): the cause wrapped by the result is the sentinel,
    not the original error, and the original error is nowhere on the
    result's unwrap chain. *)
Lemma formatError_drops_original :
  errors.Unwrap (@formatError plainFormats boom) <> Some boom
  /\ ~ In boom (errors.chain (@formatError plainFormats boom)).
Proof.
  split.
  - vm_compute. discriminate.
  - vm_compute. intros [H | [H | []]]; discriminate.
Qed.

(** C8 (amended).  For every error that [formatError] maps (one without
    the internal-error marker), the result is a new error whose wrapped
    cause is the portable sentinel and whose text is the sentinel's text,
    a comma, and the text of the original error.  The original error is
    kept as text only: it is not on the result's unwrap chain.
    [formatError] is a total function, so the mapping raises nothing. *)
Theorem formatError_wraps_kind (F : ErrorFormats) (err : error) :
  services.InternalError err = false ->
  exists kind : error,
    (kind = services.ErrPermissionDenied \/ kind = services.ErrObjectNotExist
     \/ kind = services.ErrUnexpected)
    /\ errors.Unwrap (formatError err) = Some kind
    /\ Error (formatError err) = Error kind ++ ", " ++ Error err
    /\ errors.chain (formatError err) = [formatError err; kind]
    /\ ~ In err (errors.chain (formatError err)).
Proof.
  intros Hint. destruct (formatError_shape err Hint) as (kind & Hkind & Heq).
  exists kind. rewrite Heq. split; [exact Hkind|].
  split; [reflexivity|]. split; [reflexivity|].
  assert (Hchain : errors.chain kind = [kind])
    by (destruct Hkind as [-> | [-> | ->]]; reflexivity).
  split; [simpl; now rewrite Hchain|].
  simpl. rewrite Hchain. intros [H | [H | []]].
  - (* the wrapper's text is strictly longer than the original's *)
    destruct err; try discriminate. injection H as Hmsg _. simpl in Hmsg.
    assert (Hne : Error kind ++ ", " <> "")
      by (destruct (Error kind); discriminate).
    apply (append_neq_self (b := msg) Hne).
    rewrite <- Hmsg at 2.
    clear. induction (Error kind) as [|c k IH]; simpl; [reflexivity | now rewrite IH].
  - subst err. destruct Hkind as [-> | [-> | ->]]; discriminate.
Qed.

Lemma formatError_wraps_kind_witness :
  exists kind : error,
    (kind = services.ErrPermissionDenied \/ kind = services.ErrObjectNotExist
     \/ kind = services.ErrUnexpected)
    /\ errors.Unwrap (@formatError plainFormats boom) = Some kind
    /\ @Error plainFormats (@formatError plainFormats boom)
       = @Error plainFormats kind ++ ", " ++ @Error plainFormats boom
    /\ errors.chain (@formatError plainFormats boom)
       = [@formatError plainFormats boom; kind]
    /\ ~ In boom (errors.chain (@formatError plainFormats boom)).
Proof.
  apply (formatError_wraps_kind plainFormats boom). reflexivity.
Defined.

(** ** Running programs *)

Lemma run_bind {St A B : Type} (h : Handler St) (p : Prog A) (f : A -> Prog B) (st : St) :
  run h (bind p f) st =
  let '(a, st1, tr1) := run h p st in
  let '(b, st2, tr2) := run h (f a) st1 in
  (b, st2, (tr1 ++ tr2)%list).
Proof.
  revert st. induction p as [a | c k IH]; intros st; simpl.
  - now destruct (run h (f a) st) as [[b st2] tr2].
  - destruct (h c st) as [r st1]. rewrite IH.
    destruct (run h (k r) st1) as [[a st2] tr1].
    now destruct (run h (f a) st2) as [[b st3] tr2].
Qed.

(** ** Delete *)

(** What [delete] comes to under any service. *)
Lemma run_delete {St : Type} (h : Handler St) (s : Storage) (path : string)
  (opt : pairStorageDelete.t) (st : St) :
  run h (delete s path opt) st =
  if pairStorageDelete.HasObjectMode opt
     && ObjectModeMethods.IsDir (pairStorageDelete.ObjectMode opt)
     && negb (VirtualDir (features s))
  then (Some (PairUnsupportedError (WithObjectMode (pairStorageDelete.ObjectMode opt))), st, [])
  else
    let rp := if pairStorageDelete.HasObjectMode opt
                 && ObjectModeMethods.IsDir (pairStorageDelete.ObjectMode opt)
              then getAbsPath s path ++ "/" else getAbsPath s path in
    let (err, st1) := h (DeleteFile rp) st in
    (match err with
     | Some (ServerError_value e) => if Code e =? NoSuchKey then None else err
     | _ => err
     end, st1, [DeleteFile rp]).
Proof.
  assert (Hcall : forall rp : string,
    run h (err <- client.DeleteFile rp ;;
           match err with
           | None => Ret None
           | Some (ServerError_value e) =>
               if Code e =? NoSuchKey then Ret None else Ret err
           | Some _ => Ret err
           end) st =
    let (err, st1) := h (DeleteFile rp) st in
    (match err with
     | Some (ServerError_value e) => if Code e =? NoSuchKey then None else err
     | _ => err
     end, st1, [DeleteFile rp])).
  { intros rp. simpl. destruct (h (DeleteFile rp) st) as [err st1].
    destruct err as [err|]; [destruct err|]; simpl; try reflexivity.
    match goal with
    | |- context [Code ?e =? NoSuchKey] => destruct (Code e =? NoSuchKey)
    end; reflexivity. }
  unfold delete.
  destruct (pairStorageDelete.HasObjectMode opt
            && ObjectModeMethods.IsDir (pairStorageDelete.ObjectMode opt)).
  - destruct (VirtualDir (features s)); simpl negb; cbv iota.
    + apply Hcall.
    + reflexivity.
  - apply Hcall.
Qed.

(** The value-held case.  Whenever [delete] reaches the backend and the
    backend's [DeleteFile] fails with a [uerr.ServerError] held by value
    whose code is [NoSuchKey], [delete] returns nil.  Hence two deletes in sequence on
    the same path, the first succeeding at the backend and the second
    failing there with [NoSuchKey], both return nil. *)
Theorem delete_no_such_key_succeeds {St : Type} (h : Handler St) (s : Storage)
  (path : string) (opt : pairStorageDelete.t) :
  (forall (st : St) (k : string) (e : ServerError),
      snd (run h (delete s path opt) st) = [DeleteFile k] ->
      fst (h (DeleteFile k) st) = Some (ServerError_value e) ->
      Code e = NoSuchKey ->
      fst (fst (run h (delete s path opt) st)) = None)
  /\ (forall (st : St) (k : string) (e : ServerError),
        snd (run h (delete s path opt) st) = [DeleteFile k] ->
        fst (h (DeleteFile k) st) = None ->
        fst (h (DeleteFile k) (snd (h (DeleteFile k) st))) = Some (ServerError_value e) ->
        Code e = NoSuchKey ->
        fst (fst (run h (deleteTwice s path opt) st)) = (None, None)).
Proof.
  split.
  - intros st k e Htr Hans Hcode. rewrite run_delete in *.
    destruct (_ && negb _); [discriminate|]. cbv zeta in *.
    destruct (h (DeleteFile _) st) as [err st1] eqn:E. simpl in *.
    injection Htr as <-. rewrite E in Hans. simpl in Hans. subst err.
    now rewrite Hcode.
  - intros st k e Htr Hfirst Hsecond Hcode. unfold deleteTwice.
    rewrite run_bind, run_delete in *.
    destruct (_ && negb _) eqn:Hdir; [discriminate|]. cbv zeta in *.
    destruct (h (DeleteFile _) st) as [err st1] eqn:E. simpl in Htr.
    injection Htr as <-. rewrite E in Hfirst, Hsecond. simpl in Hfirst, Hsecond.
    subst err. rewrite run_bind, run_delete, Hdir. cbv zeta.
    destruct (h (DeleteFile _) st1) as [err2 st2] eqn:E2. simpl in *.
    subst err2. now rewrite Hcode.
Qed.

Lemma delete_no_such_key_succeeds_witness :
  fst (fst (run fake (delete dataStore "gone.txt" fileMode) oneFile)) = None
  /\ fst (fst (run fake (deleteTwice dataStore "a.txt" fileMode) oneFile)) = (None, None).
Proof.
  pose proof (@delete_no_such_key_succeeds Fake fake dataStore "gone.txt" fileMode)
    as (Honce & _).
  pose proof (@delete_no_such_key_succeeds Fake fake dataStore "a.txt" fileMode)
    as (_ & Htwice).
  split.
  - apply (Honce oneFile "data/gone.txt" {| retCode := NoSuchKey; message := "file not exist" |});
      reflexivity.
  - apply (Htwice oneFile "data/a.txt" {| retCode := NoSuchKey; message := "file not exist" |});
      reflexivity.
Defined.

(** C2 (what the code does).  [delete] asserts the value type
    [uerr.ServerError] only.  When the backend's [DeleteFile] fails with
    the [NoSuchKey] code in a [*uerr.ServerError], the pointer form that
    [formatError] asserts, [delete] returns that error instead of nil;
    it likewise returns a plain error of the SDK.  So of two deletes in
    sequence on the same path, the first succeeding at the backend and
    the second failing there in that way, the second reports the
    error. *)
Theorem delete_no_such_key_by_pointer_fails (St : Type) (h : Handler St) (s : Storage)
  (path : string) (opt : pairStorageDelete.t) :
  (forall (st : St) (k : string) (e : ServerError),
      snd (run h (delete s path opt) st) = [DeleteFile k] ->
      fst (h (DeleteFile k) st) = Some (ServerError_pointer e) ->
      Code e = NoSuchKey ->
      fst (fst (run h (delete s path opt) st)) = Some (ServerError_pointer e))
  /\ (forall (st : St) (k msg : string),
        snd (run h (delete s path opt) st) = [DeleteFile k] ->
        fst (h (DeleteFile k) st) = Some (errorString msg) ->
        fst (fst (run h (delete s path opt) st)) = Some (errorString msg))
  /\ (forall (st : St) (k : string) (e : ServerError),
        snd (run h (delete s path opt) st) = [DeleteFile k] ->
        fst (h (DeleteFile k) st) = None ->
        fst (h (DeleteFile k) (snd (h (DeleteFile k) st))) = Some (ServerError_pointer e) ->
        Code e = NoSuchKey ->
        fst (fst (run h (deleteTwice s path opt) st))
        = (None, Some (ServerError_pointer e))).
Proof.
  split; [|split].
  - intros st k e Htr Hans _. rewrite run_delete in *.
    destruct (_ && negb _); [discriminate|]. cbv zeta in *.
    destruct (h (DeleteFile _) st) as [err st1] eqn:E. simpl in *.
    injection Htr as <-. rewrite E in Hans. simpl in Hans. now subst err.
  - intros st k msg Htr Hans. rewrite run_delete in *.
    destruct (_ && negb _); [discriminate|]. cbv zeta in *.
    destruct (h (DeleteFile _) st) as [err st1] eqn:E. simpl in *.
    injection Htr as <-. rewrite E in Hans. simpl in Hans. now subst err.
  - intros st k e Htr Hfirst Hsecond _. unfold deleteTwice.
    rewrite run_bind, run_delete in *.
    destruct (_ && negb _) eqn:Hdir; [discriminate|]. cbv zeta in *.
    destruct (h (DeleteFile _) st) as [err st1] eqn:E. simpl in Htr.
    injection Htr as <-. rewrite E in Hfirst, Hsecond. simpl in Hfirst, Hsecond.
    subst err. rewrite run_bind, run_delete, Hdir. cbv zeta.
    destruct (h (DeleteFile _) st1) as [err2 st2] eqn:E2. simpl in *.
    now subst err2.
Qed.

Lemma delete_no_such_key_by_pointer_fails_witness :
  fst (fst (run fakeByPointer (deleteTwice dataStore "a.txt" fileMode) oneFile))
  = (None, Some noSuchKeyPointer).
Proof.
  destruct (@delete_no_such_key_by_pointer_fails Fake fakeByPointer dataStore "a.txt" fileMode)
    as (_ & _ & Htwice).
  apply (Htwice oneFile "data/a.txt" {| retCode := NoSuchKey; message := "file not exist" |});
    reflexivity.
Defined.

(** ** Listing engine *)

Lemma appendPrefixes_map (s : Storage) (vs : list CommonPreInfo) (data : list Object) :
  appendPrefixes s vs data = (data ++ map (dirObject s) vs)%list.
Proof.
  unfold appendPrefixes. revert data.
  induction vs as [|v vs IH]; intros data; simpl.
  - now rewrite app_nil_r.
  - rewrite IH, <- app_assoc. reflexivity.
Qed.

Lemma appendContents_ok (s : Storage) (vs : list ObjectInfo) (data files : list Object) :
  formatAll s vs = inl files ->
  appendContents s vs data = ((data ++ files)%list, None).
Proof.
  revert data files. induction vs as [|v vs IH]; intros data files; simpl.
  - intros [= <-]. now rewrite app_nil_r.
  - destruct (formatFileObject s v) as [o|err]; [|discriminate].
    destruct (formatAll s vs) as [os|err]; [|discriminate].
    intros [= <-]. rewrite (IH _ os eq_refl), <- app_assoc. reflexivity.
Qed.

(** The formatter fails with a [*strconv.NumError] only. *)
Lemma formatFileObject_error (s : Storage) (v : ObjectInfo) (err : error) :
  formatFileObject s v = inr err -> exists f n c, err = NumError f n c.
Proof.
  unfold formatFileObject, strconv.ParseInt.
  destruct (Size v) as [|c rest]; [intros [= <-]; eauto|].
  destruct (strconv.ParseUint10 _) as [un|[]];
    repeat match goal with
           | |- context [if ?b then _ else _] => destruct b
           end; intros [= <-]; eauto.
Qed.

Lemma appendContents_error (s : Storage) (vs : list ObjectInfo) (data : list Object) :
  formats s vs = false ->
  exists f n c, snd (appendContents s vs data) = Some (NumError f n c).
Proof.
  unfold formats. revert data. induction vs as [|v vs IH]; intros data; simpl.
  - discriminate.
  - destruct (formatFileObject s v) as [o|err] eqn:E.
    + destruct (formatAll s vs) as [os|err]; [discriminate|].
      intros _. now apply IH.
    + intros _. apply formatFileObject_error in E.
      destruct E as (f & n & c & ->). simpl. eauto.
Qed.

Lemma formats_formatAll (s : Storage) (vs : list ObjectInfo) :
  formats s vs = true -> exists files, formatAll s vs = inl files.
Proof. unfold formats. destruct (formatAll s vs); [eauto | discriminate]. Qed.

Lemma formatAll_length (s : Storage) (vs : list ObjectInfo) (files : list Object) :
  formatAll s vs = inl files ->
  Forall2 (fun v o => formatFileObject s v = inl o) vs files.
Proof.
  revert files. induction vs as [|v vs IH]; intros files; simpl.
  - intros [= <-]. constructor.
  - destruct (formatFileObject s v) as [o|err] eqn:E; [|discriminate].
    destruct (formatAll s vs) as [os|err]; [|discriminate].
    intros [= <-]. constructor; [exact E | now apply IH].
Qed.

(** One page fetch in directory mode, when the backend answers and
    every content entry formats. *)
Lemma run_nextObjectPageByDir {St : Type} (h : Handler St) (s : Storage)
  (page : ObjectPage) (st st1 : St) (output : ListObjectsResponse)
  (files : list Object) :
  h (ListObjects (prefix (Status page)) (marker (Status page))
       (delimiter (Status page)) (maxKeys (Status page))) st = ((output, None), st1) ->
  formatAll s (Contents output) = inl files ->
  run h (nextObjectPageByDir s page) st =
  (({| Status := if final output then Status page
                 else setMarker (Status page) (NextMarker output);
       Data := (Data page ++ map (dirObject s) (CommonPrefixes output) ++ files)%list |},
    if final output then Some IterateDone else None),
   st1,
   [ListObjects (prefix (Status page)) (marker (Status page))
      (delimiter (Status page)) (maxKeys (Status page))]).
Proof.
  intros Hans Hfiles. unfold nextObjectPageByDir, final. simpl. rewrite Hans.
  rewrite appendPrefixes_map, (appendContents_ok _ _ _ Hfiles), <- app_assoc.
  destruct (String.eqb (NextMarker output) ""); [reflexivity|].
  destruct (IsTruncated output); reflexivity.
Qed.

Lemma run_nextObjectPageByPrefix {St : Type} (h : Handler St) (s : Storage)
  (page : ObjectPage) (st st1 : St) (output : ListObjectsResponse)
  (files : list Object) :
  h (ListObjects (prefix (Status page)) (marker (Status page))
       (delimiter (Status page)) (maxKeys (Status page))) st = ((output, None), st1) ->
  formatAll s (Contents output) = inl files ->
  run h (nextObjectPageByPrefix s page) st =
  (({| Status := if final output then Status page
                 else setMarker (Status page) (NextMarker output);
       Data := (Data page ++ files)%list |},
    if final output then Some IterateDone else None),
   st1,
   [ListObjects (prefix (Status page)) (marker (Status page))
      (delimiter (Status page)) (maxKeys (Status page))]).
Proof.
  intros Hans Hfiles. unfold nextObjectPageByPrefix, final. simpl. rewrite Hans.
  rewrite (appendContents_ok _ _ _ Hfiles).
  destruct (String.eqb (NextMarker output) ""); [reflexivity|].
  destruct (IsTruncated output); reflexivity.
Qed.

Lemma final_iff (r : ListObjectsResponse) :
  final r = true <-> NextMarker r = "" \/ IsTruncated r = false.
Proof.
  unfold final. rewrite orb_true_iff, String.eqb_eq, negb_true_iff. reflexivity.
Qed.

(** *** The engine against the scripted service *)

Lemma fetches_dir (s : Storage) : fetches s (nextObjectPageByDir s) (dirPage s).
Proof.
  intros status st r rest Hscript Hfmt.
  destruct (formats_formatAll _ _ Hfmt) as (files & Hfiles).
  rewrite (@run_nextObjectPageByDir Fake fake s _ st
             {| keys := keys st; script := rest; header := header st; body := body st |}
             r files).
  - unfold dirPage, filesOf. rewrite Hfiles. reflexivity.
  - simpl. now rewrite Hscript.
  - exact Hfiles.
Qed.

Lemma fetches_prefix (s : Storage) : fetches s (nextObjectPageByPrefix s) (prefixPage s).
Proof.
  intros status st r rest Hscript Hfmt.
  destruct (formats_formatAll _ _ Hfmt) as (files & Hfiles).
  rewrite (@run_nextObjectPageByPrefix Fake fake s _ st
             {| keys := keys st; script := rest; header := header st; body := body st |}
             r files).
  - unfold prefixPage, filesOf. rewrite Hfiles. reflexivity.
  - simpl. now rewrite Hscript.
  - exact Hfiles.
Qed.

(** Any number of continuing pages followed by a final one: the
    protocol makes one call per page, each with the token of the page
    before, and stops after the final page. *)
Lemma iterate_script (s : Storage) (next : NextObjectFunc)
  (pageOf : ListObjectsResponse -> list Object) :
  fetches s next pageOf ->
  forall (pre : list ListObjectsResponse) (last : ListObjectsResponse)
         (fuel : nat) (status : objectPageStatus) (pages : list (list Object))
         (st : Fake),
    Forall (fun r => final r = false /\ formats s (Contents r) = true) pre ->
    final last = true ->
    formats s (Contents last) = true ->
    script st = (pre ++ [last])%list ->
    (List.length pre < fuel)%nat ->
    run fake (iterate fuel next status pages) st =
    (Listed (pages ++ map pageOf (pre ++ [last]))%list,
     played st,
     requests status (map NextMarker pre)).
Proof.
  intros Hnext pre. induction pre as [|r pre IH];
    intros last fuel status pages st Hpre Hlast Hfmt Hscript Hfuel;
    (destruct fuel as [|fuel]; [simpl in Hfuel; lia|]);
    cbn [iterate]; rewrite run_bind.
  - rewrite (Hnext status st last [] Hscript Hfmt). rewrite Hlast. reflexivity.
  - inversion Hpre as [|r' pre' [Hr Hrfmt] Hpre']; subst.
    rewrite (Hnext status st r (pre ++ [last])%list Hscript Hrfmt). rewrite Hr.
    cbn [fst snd Status Data].
    rewrite (IH last fuel (setMarker status (NextMarker r))
               (pages ++ [pageOf r])%list
               {| keys := keys st; script := (pre ++ [last])%list;
                  header := header st; body := body st |}
               Hpre' Hlast Hfmt eq_refl); [|simpl in Hfuel; lia].
    unfold requests, played. simpl. rewrite <- app_assoc. reflexivity.
Qed.

Lemma continues_final (r : ListObjectsResponse) : continues r -> final r = false.
Proof.
  intros [Htr Htok]. unfold final. rewrite Htr.
  destruct (String.eqb_spec (NextMarker r) ""); [contradiction | reflexivity].
Qed.

(** What [list] hands to the iteration protocol. *)
Lemma Storage_list_iterator (s : Storage) (path : string) (opt : pairStorageList.t)
  (it : ObjectIterator) :
  Storage_list s path opt = inl it ->
  (it = NewObjectIterator (nextObjectPageByDir s)
          {| prefix := getAbsPath s path; maxKeys := 200; delimiter := "/"; marker := "" |}
   \/ it = NewObjectIterator (nextObjectPageByPrefix s)
             {| prefix := getAbsPath s path; maxKeys := 200; delimiter := ""; marker := "" |}).
Proof.
  unfold Storage_list.
  destruct (ListModeMethods.IsDir _); [intros [= <-]; now left|].
  destruct (ListModeMethods.IsPrefix _); [intros [= <-]; now right | discriminate].
Qed.

(** C1.  In both modes, when the backend answers a page fetch and the
    page is produced, the fetch returns the iteration-done sentinel
    exactly when the continuation token is empty or the truncated flag
    is false; otherwise it returns nil and the cursor's marker becomes
    the returned token.  Hence, against a service that answers with three
    truncated pages carrying tokens and then a page that is not
    truncated, a listing makes exactly four [ListObjects] calls, each
    with the token of the page before, whatever the pages hold. *)
Theorem listing_ends_on_final_page (s : Storage) :
  (forall (St : Type) (h : Handler St) (st st1 : St) (page : ObjectPage)
          (output : ListObjectsResponse) (next : NextObjectFunc),
      next = nextObjectPageByDir s \/ next = nextObjectPageByPrefix s ->
      h (listCall page) st = ((output, None), st1) ->
      formats s (Contents output) = true ->
      (snd (fst (fst (run h (next page) st))) = Some IterateDone
       <-> NextMarker output = "" \/ IsTruncated output = false)
      /\ (snd (fst (fst (run h (next page) st))) <> Some IterateDone ->
          snd (fst (fst (run h (next page) st))) = None
          /\ marker (Status (fst (fst (fst (run h (next page) st))))) = NextMarker output))
  /\ (forall (path : string) (opt : pairStorageList.t) (it : ObjectIterator)
             (r1 r2 r3 r4 : ListObjectsResponse) (st : Fake) (fuel : nat),
        Storage_list s path opt = inl it ->
        script st = [r1; r2; r3; r4] ->
        continues r1 -> continues r2 -> continues r3 ->
        IsTruncated r4 = false ->
        formats s (Contents r1) = true -> formats s (Contents r2) = true ->
        formats s (Contents r3) = true -> formats s (Contents r4) = true ->
        (4 <= fuel)%nat ->
        exists pages : list (list Object),
          run fake (drain fuel it) st =
          (Listed pages, played st,
           [ListObjects (getAbsPath s path) "" (delimiter (Status (o it))) 200;
            ListObjects (getAbsPath s path) (NextMarker r1) (delimiter (Status (o it))) 200;
            ListObjects (getAbsPath s path) (NextMarker r2) (delimiter (Status (o it))) 200;
            ListObjects (getAbsPath s path) (NextMarker r3) (delimiter (Status (o it))) 200])
          /\ List.length pages = 4%nat).
Proof.
  split.
  - intros St h st st1 page output next Hnext Hans Hfmt.
    destruct (formats_formatAll _ _ Hfmt) as (files & Hfiles).
    assert (Hrun : snd (fst (fst (run h (next page) st)))
                   = (if final output then Some IterateDone else None)
                   /\ marker (Status (fst (fst (fst (run h (next page) st)))))
                      = marker (if final output then Status page
                                else setMarker (Status page) (NextMarker output))).
    { destruct Hnext as [-> | ->].
      - now rewrite (@run_nextObjectPageByDir _ h s page st st1 output files Hans Hfiles).
      - now rewrite (@run_nextObjectPageByPrefix _ h s page st st1 output files Hans Hfiles). }
    destruct Hrun as [-> ->]. rewrite <- final_iff.
    destruct (final output); simpl; split;
      try split; try congruence; try tauto; intros; congruence.
  - intros path opt it r1 r2 r3 r4 st fuel Hlist Hscript H1 H2 H3 H4 F1 F2 F3 F4 Hfuel.
    assert (Hpre : Forall (fun r => final r = false /\ formats s (Contents r) = true)
                     [r1; r2; r3])
      by (repeat constructor; auto using continues_final).
    assert (Hlast : final r4 = true)
      by (unfold final; rewrite H4; apply orb_true_r).
    destruct (Storage_list_iterator _ _ _ Hlist) as [-> | ->]; unfold drain; simpl.
    + exists (map (dirPage s) [r1; r2; r3; r4]).
      rewrite (@iterate_script s _ _ (fetches_dir s) [r1; r2; r3] r4 fuel _ [] st
                 Hpre Hlast F4 Hscript); [now split | simpl; lia].
    + exists (map (prefixPage s) [r1; r2; r3; r4]).
      rewrite (@iterate_script s _ _ (fetches_prefix s) [r1; r2; r3] r4 fuel _ [] st
                 Hpre Hlast F4 Hscript); [now split | simpl; lia].
Qed.

Lemma listing_ends_on_final_page_witness :
  exists pages : list (list Object),
    run fake
      (drain 4 (NewObjectIterator (nextObjectPageByDir dataStore)
                  {| prefix := "data/"; maxKeys := 200; delimiter := "/"; marker := "" |}))
      fourPages =
    (Listed pages, played fourPages,
     [ListObjects "data/" "" "/" 200; ListObjects "data/" "m1" "/" 200;
      ListObjects "data/" "m2" "/" 200; ListObjects "data/" "m3" "/" 200])
    /\ List.length pages = 4%nat.
Proof.
  destruct (listing_ends_on_final_page dataStore) as [_ Hfour].
  apply (Hfour "" dirList _ _ _ _ _ fourPages 4%nat eq_refl eq_refl);
    try reflexivity; try (split; [reflexivity | discriminate]); lia.
Defined.

(** C9.  A page fetch, in either mode and whatever the backend answers,
    leaves the cursor's prefix, page size and delimiter as they were.
    The marker changes only on a fetch that returns nil, which happens
    only for a response that does not end the listing, and then it is
    that response's continuation token; on the final page, and on any
    error, the marker keeps its value. *)
Theorem cursor_fields_preserved (s : Storage) (St : Type) (h : Handler St) (st : St)
  (page : ObjectPage) (next : NextObjectFunc) :
  next = nextObjectPageByDir s \/ next = nextObjectPageByPrefix s ->
  prefix (Status (fst (fst (fst (run h (next page) st))))) = prefix (Status page)
  /\ maxKeys (Status (fst (fst (fst (run h (next page) st))))) = maxKeys (Status page)
  /\ delimiter (Status (fst (fst (fst (run h (next page) st))))) = delimiter (Status page)
  /\ (snd (fst (fst (run h (next page) st))) <> None ->
      marker (Status (fst (fst (fst (run h (next page) st))))) = marker (Status page))
  /\ (snd (fst (fst (run h (next page) st))) = None ->
      final (fst (fst (h (listCall page) st))) = false
      /\ marker (Status (fst (fst (fst (run h (next page) st)))))
         = NextMarker (fst (fst (h (listCall page) st)))).
Proof.
  intros [-> | ->]; unfold nextObjectPageByDir, nextObjectPageByPrefix, listCall, final;
    simpl; destruct (h _ st) as [[output err] st1]; simpl;
    (destruct err as [err|]; simpl; [repeat split; congruence|]);
    match goal with
    | |- context [appendContents ?s ?vs ?data] =>
        destruct (appendContents s vs data) as [data' [err|]]
    end; simpl; try (repeat split; congruence);
    destruct (String.eqb (NextMarker output) ""); simpl;
    try (repeat split; congruence);
    destruct (IsTruncated output); simpl; repeat split; congruence.
Qed.

Lemma cursor_fields_preserved_witness :
  marker (Status (fst (fst (fst (run fake
            (nextObjectPageByDir dataStore
               {| Status := {| prefix := "data/"; maxKeys := 200;
                               delimiter := "/"; marker := "" |};
                  Data := [] |}) fourPages))))) = "m1"
  /\ marker (Status (fst (fst (fst (run fake
               (nextObjectPageByPrefix dataStore
                  {| Status := {| prefix := "data/"; maxKeys := 200;
                                  delimiter := ""; marker := "m0" |};
                     Data := [] |}) (played fourPages)))))) = "m0".
Proof.
  split.
  - pose proof (@cursor_fields_preserved dataStore Fake fake fourPages
                  {| Status := {| prefix := "data/"; maxKeys := 200;
                                  delimiter := "/"; marker := "" |};
                     Data := [] |} _ (or_introl eq_refl))
      as (_ & _ & _ & _ & Hmove).
    exact (proj2 (Hmove eq_refl)).
  - pose proof (@cursor_fields_preserved dataStore Fake fake (played fourPages)
                  {| Status := {| prefix := "data/"; maxKeys := 200;
                                  delimiter := ""; marker := "m0" |};
                     Data := [] |} _ (or_intror eq_refl))
      as (_ & _ & _ & Hkeep & _).
    apply Hkeep. discriminate.
Defined.



(** ** Stat and the object formatter *)

Section Stat.
Context {P : TimeParser}.

Lemma run_stat {St : Type} (h : Handler St) (s : Storage) (path : string)
  (opt : pairStorageStat.t) (st : St) :
  run h (stat s path opt) st =
  if pairStorageStat.HasObjectMode opt
     && ObjectModeMethods.IsDir (pairStorageStat.ObjectMode opt)
     && negb (VirtualDir (features s))
  then (inr (PairUnsupportedError (WithObjectMode (pairStorageStat.ObjectMode opt))), st, [])
  else
    let rp := if pairStorageStat.HasObjectMode opt
                 && ObjectModeMethods.IsDir (pairStorageStat.ObjectMode opt)
              then getAbsPath s path ++ "/" else getAbsPath s path in
    let (err, st1) := h (HeadFile rp) st in
    match err with
    | Some e => (inr e, st1, [HeadFile rp])
    | None =>
        let (output, st2) := h LastResponseHeader st1 in
        (statHeaders output (statObject s path opt rp), st2,
         [HeadFile rp; LastResponseHeader])
    end.
Proof.
  unfold stat, statObject.
  destruct (pairStorageStat.HasObjectMode opt
            && ObjectModeMethods.IsDir (pairStorageStat.ObjectMode opt)).
  - destruct (VirtualDir (features s)); simpl; [|reflexivity].
    destruct (h (HeadFile _) st) as [[e|] st1]; simpl; [reflexivity|].
    now destruct (h LastResponseHeader st1) as [output st2].
  - simpl. destruct (h (HeadFile _) st) as [[e|] st1]; simpl; [reflexivity|].
    now destruct (h LastResponseHeader st1) as [output st2].
Qed.


Lemma statHeaders_length_and_date (output : Header) (o : Object)
  (len date : string) (n : Z) (t : Time) :
  Get output "Content-Length" = len -> len <> "" ->
  strconv.ParseInt len = inl n ->
  Get output "Last-Modified" = date -> date <> "" ->
  time_Parse time.RFC1123 date = inl t ->
  exists o', statHeaders output o = inl o'
             /\ contentLength o' = Some n /\ lastModified o' = Some t.
Proof.
  intros Hlen Hlen' Hn Hdate Hdate' Ht. unfold statHeaders.
  rewrite Hlen, Hdate, Hn, Ht.
  destruct (String.eqb_spec len ""); [contradiction|].
  destruct (String.eqb_spec date ""); [contradiction|].
  eexists. split; [reflexivity|].
  repeat match goal with
         | |- context [if ?b then _ else _] => destruct b
         end; split; reflexivity.
Qed.

Lemma statHeaders_bad_length (output : Header) (o : Object) (err : error) :
  Get output "Content-Length" <> "" ->
  strconv.ParseInt (Get output "Content-Length") = inr err ->
  statHeaders output o = inr err.
Proof.
  intros Hne Herr. unfold statHeaders. rewrite Herr.
  destruct (String.eqb_spec (Get output "Content-Length") ""); [contradiction | reflexivity].
Qed.

Lemma statHeaders_bad_date (output : Header) (o : Object) (err : error) :
  (Get output "Content-Length" = ""
   \/ exists n, strconv.ParseInt (Get output "Content-Length") = inl n) ->
  Get output "Last-Modified" <> "" ->
  time_Parse time.RFC1123 (Get output "Last-Modified") = inr err ->
  statHeaders output o = inr err.
Proof.
  intros Hlen Hne Herr. unfold statHeaders. rewrite Herr.
  destruct (String.eqb_spec (Get output "Last-Modified") ""); [contradiction|].
  destruct Hlen as [-> | [len ->]]; [reflexivity|].
  now destruct (String.eqb (Get output "Content-Length") "").
Qed.

End Stat.

(** The reference time of Go's layouts, read as an HTTP-date. *)
Example parse_example :
  httpdate.parse "Mon, 02 Jan 2006 15:04:05 GMT" = inl (time.Unix 1136214245 0).
Proof. vm_compute. reflexivity. Qed.

Lemma ParseInt_42 : strconv.ParseInt "42" = inl 42.
Proof. reflexivity. Qed.

(** C6.  Both input shapes give the same representation of an instant,
    a [Time].  Every listing entry that formats gets its size read as a
    decimal for content length and its milliseconds divided by 1000,
    truncated toward zero, as the Unix second of its last-modified time;
    so an entry with size [42] and last-modified [1000000000000]
    milliseconds formats to content length 42 and the instant of Unix
    second 1000000000.  A stat whose response carries
    [Content-Length: 42] and [Last-Modified: Mon, 02 Jan 2006 15:04:05 GMT]
    gives content length 42 and the instant [time.Parse] reads from that
    text under the RFC1123 layout.  A size or a content length that does
    not parse, or a date that [time.Parse] rejects, ends the operation
    with that error. *)
Theorem formatter_normalizes_timestamps (P : TimeParser) (s : Storage) :
  (forall v : ObjectInfo,
      Size v = "42" -> LastModified v = 1000000000000 ->
      exists o : Object,
        formatFileObject s v = inl o
        /\ contentLength o = Some 42
        /\ lastModified o = Some (time.Unix 1000000000 0))
  /\ (forall (v : ObjectInfo) (err : error),
        strconv.ParseInt (Size v) = inr err -> formatFileObject s v = inr err)
  /\ (forall (St : Type) (h : Handler St) (st : St) (path : string)
             (opt : pairStorageStat.t) (k : string) (t : Time),
        snd (run h (stat s path opt) st) = [HeadFile k; LastResponseHeader] ->
        Get (fst (h LastResponseHeader (snd (h (HeadFile k) st)))) "Content-Length" = "42" ->
        Get (fst (h LastResponseHeader (snd (h (HeadFile k) st)))) "Last-Modified"
          = "Mon, 02 Jan 2006 15:04:05 GMT" ->
        time_Parse "Mon, 02 Jan 2006 15:04:05 MST" "Mon, 02 Jan 2006 15:04:05 GMT" = inl t ->
        exists o : Object,
          fst (fst (run h (stat s path opt) st)) = inl o
          /\ contentLength o = Some 42 /\ lastModified o = Some t)
  /\ (forall (St : Type) (h : Handler St) (st : St) (path : string)
             (opt : pairStorageStat.t) (k : string) (err : error),
        snd (run h (stat s path opt) st) = [HeadFile k; LastResponseHeader] ->
        Get (fst (h LastResponseHeader (snd (h (HeadFile k) st)))) "Content-Length" <> "" ->
        strconv.ParseInt
          (Get (fst (h LastResponseHeader (snd (h (HeadFile k) st)))) "Content-Length")
          = inr err ->
        fst (fst (run h (stat s path opt) st)) = inr err)
  /\ (forall (St : Type) (h : Handler St) (st : St) (path : string)
             (opt : pairStorageStat.t) (k : string) (err : error),
        snd (run h (stat s path opt) st) = [HeadFile k; LastResponseHeader] ->
        Get (fst (h LastResponseHeader (snd (h (HeadFile k) st)))) "Content-Length" = "42" ->
        Get (fst (h LastResponseHeader (snd (h (HeadFile k) st)))) "Last-Modified" <> "" ->
        time_Parse "Mon, 02 Jan 2006 15:04:05 MST"
          (Get (fst (h LastResponseHeader (snd (h (HeadFile k) st)))) "Last-Modified")
          = inr err ->
        fst (fst (run h (stat s path opt) st)) = inr err)
  /\ (forall (v : ObjectInfo) (o : Object),
        formatFileObject s v = inl o ->
        (exists n : Z, strconv.ParseInt (Size v) = inl n /\ contentLength o = Some n)
        /\ lastModified o = Some {| sec := Z.quot (LastModified v) 1000; nsec := 0 |})
  /\ (forall (St : Type) (h : Handler St) (st : St) (path : string)
             (opt : pairStorageStat.t) (k len date : string) (n : Z) (t : Time),
        snd (run h (stat s path opt) st) = [HeadFile k; LastResponseHeader] ->
        Get (fst (h LastResponseHeader (snd (h (HeadFile k) st)))) "Content-Length" = len ->
        len <> "" ->
        strconv.ParseInt len = inl n ->
        Get (fst (h LastResponseHeader (snd (h (HeadFile k) st)))) "Last-Modified" = date ->
        date <> "" ->
        time_Parse "Mon, 02 Jan 2006 15:04:05 MST" date = inl t ->
        exists o : Object,
          fst (fst (run h (stat s path opt) st)) = inl o
          /\ contentLength o = Some n /\ lastModified o = Some t)
  /\ (forall v : ObjectInfo,
        (Size v = "" ->
         formatFileObject s v = inr (NumError "ParseInt" "" ErrSyntax))
        /\ (Size v = "4x2" ->
            formatFileObject s v = inr (NumError "ParseInt" "4x2" ErrSyntax))
        /\ (Size v = "9223372036854775808" ->
            formatFileObject s v
            = inr (NumError "ParseInt" "9223372036854775808" ErrRange))).
Proof.
  assert (Hrun : forall (St : Type) (h : Handler St) (st : St) (path : string)
                        (opt : pairStorageStat.t) (k : string),
             snd (run h (stat s path opt) st) = [HeadFile k; LastResponseHeader] ->
             exists o0, fst (fst (run h (stat s path opt) st))
                        = statHeaders (fst (h LastResponseHeader (snd (h (HeadFile k) st)))) o0).
  { intros St h st path opt k. rewrite run_stat.
    destruct (_ && negb _); [discriminate|]. cbv zeta.
    destruct (h (HeadFile _) st) as [[e|] st1] eqn:E; [discriminate|].
    destruct (h LastResponseHeader st1) as [output st2] eqn:E2. simpl.
    intros [= <-]. rewrite E. simpl. rewrite E2. eauto. }
  split.
  { intros v Hsize Hlm. unfold formatFileObject. rewrite Hsize, Hlm, ParseInt_42.
    eexists. split; [reflexivity|].
    repeat match goal with
           | |- context [if ?b then _ else _] => destruct b
           end; split; reflexivity. }
  split.
  { intros v err Herr. unfold formatFileObject. now rewrite Herr. }
  split.
  { intros St h st path opt k t Htr Hlen Hdate Ht.
    destruct (Hrun St h st path opt k Htr) as (o0 & ->).
    apply (@statHeaders_length_and_date P _ o0 "42" "Mon, 02 Jan 2006 15:04:05 GMT" 42 t);
      auto; discriminate. }
  split.
  { intros St h st path opt k err Htr Hne Herr.
    destruct (Hrun St h st path opt k Htr) as (o0 & ->).
    now apply statHeaders_bad_length. }
  split.
  { intros St h st path opt k err Htr Hlen Hne Herr.
    destruct (Hrun St h st path opt k Htr) as (o0 & ->).
    apply statHeaders_bad_date; auto. right. exists 42. now rewrite Hlen. }
  split.
  { intros v o. unfold formatFileObject.
    destruct (strconv.ParseInt (Size v)) as [n|err]; [|discriminate].
    intros [= <-]. split; [exists n; split; [reflexivity|]|];
      destruct (String.eqb (Etag v) ""); reflexivity. }
  split.
  { intros St h st path opt k len date n t Htr Hlen Hne Hn Hdate Hdne Ht.
    destruct (Hrun St h st path opt k Htr) as (o0 & ->).
    apply (@statHeaders_length_and_date P _ o0 len date n t); auto. }
  intros v. unfold formatFileObject. repeat split; intros ->; reflexivity.
Qed.

Lemma formatter_normalizes_timestamps_witness :
  (exists o : Object,
      formatFileObject dataStore (entry "data/a") = inl o
      /\ contentLength o = Some 42
      /\ lastModified o = Some (time.Unix 1000000000 0))
  /\ (exists o : Object,
        fst (fst (run fake (@stat httpdateParser dataStore "a.txt" statFile) oneFile)) = inl o
        /\ contentLength o = Some 42
        /\ lastModified o = Some (time.Unix 1136214245 0)).
Proof.
  destruct (formatter_normalizes_timestamps httpdateParser dataStore)
    as (Hentry & _ & Hstat & _).
  split.
  - apply Hentry; reflexivity.
  - apply (Hstat Fake fake oneFile "a.txt" statFile "data/a.txt" (time.Unix 1136214245 0));
      reflexivity.
Defined.

(** ** Directory mode of create, stat and delete *)

Lemma append_assoc (a b c : string) : (a ++ b) ++ c = a ++ b ++ c.
Proof. induction a as [|x a IH]; simpl; [reflexivity | now rewrite IH]. Qed.



(** ** Read *)

(** Every reader [read] can build bottoms out in the nil reader, so
    copying from it panics before any byte moves. *)
Lemma Copy_from_nil (w : io.World) (fn : Callback) (user : option Callback) :
  io.Copy w
    (match user with
     | Some cb => iowrap.CallbackReadCloser (iowrap.CallbackReadCloser nilReadCloser fn) cb
     | None => iowrap.CallbackReadCloser nilReadCloser fn
     end) = (Panicked, w).
Proof. destruct user; reflexivity. Qed.

(** C4 (what the code does).  Under every service and for every option
    record, [read] leaves the sink and the caller's callback record
    untouched: when the download fails it returns that error with zero
    bytes, and when the download succeeds it panics, reading from a nil
    [io.ReadCloser]; the response body is never read. *)
Theorem read_never_reaches_sink (St : Type) (h : Handler St) (st : St) (s : Storage)
  (path : string) (w : io.World) (opt : pairStorageRead.t) :
  let url := fst (h (GetPrivateURL (getAbsPath s path) (3600 * Second)) st) in
  let st1 := snd (h (GetPrivateURL (getAbsPath s path) (3600 * Second)) st) in
  run h (read s path w opt) st =
  ((match fst (h (Download url) st1) with
    | Some err => Returned (0, Some err)
    | None => Panicked
    end, w),
   snd (h (Download url) st1),
   [GetPrivateURL (getAbsPath s path) (3600 * Second); Download url]).
Proof.
  unfold read. simpl.
  destruct (h (GetPrivateURL _ _) st) as [url st1]. simpl.
  destruct (h (Download url) st1) as [[err|] st2]; simpl; [reflexivity|].
  destruct (pairStorageRead.HasIoCallback opt); reflexivity.
Qed.

(** The download succeeds with body [hello]; [read] panics, and neither
    the sink nor the caller's callback sees a byte. *)
Example read_failing_input :
  run fake (read dataStore "a.txt" emptyWorld withCallback) oneFile =
  ((Panicked, emptyWorld), oneFile,
   [GetPrivateURL "data/a.txt" 3600000000000; Download "http://us3.test/data/a.txt"]).
Proof. reflexivity. Qed.

(** Over a reader that does carry the body, the same copy would deliver
    it to the sink and show the callback the same bytes. *)
Example Copy_from_body :
  io.Copy emptyWorld (iowrap.CallbackReadCloser (bytesReadCloser "hello") observe) =
  (Returned (5, None), {| io.sink := "hello"; io.seen := ["hello"] |}).
Proof. reflexivity. Qed.

(** * Further properties of the package *)

(** ** Path resolver, the other way round *)

Lemma append_inj_l (a b c : string) : a ++ b = a ++ c -> b = c.
Proof. induction a as [|x a IH]; simpl; [auto | intros [= H]; auto]. Qed.

Lemma HasPrefix_split (s p : string) :
  strings.HasPrefix s p = true -> p ++ strings.from (String.length p) s = s.
Proof.
  revert s. induction p as [|c p IH]; intros s; simpl; [reflexivity|].
  destruct s as [|d s]; [discriminate|].
  destruct (Ascii.eqb_spec d c) as [->|]; simpl; [|discriminate].
  intros H. now rewrite IH.
Qed.

(** X1.  Distinct relative paths resolve to distinct backend keys. *)
Theorem getAbsPath_injective (s : Storage) (p q : string) :
  getAbsPath s p = getAbsPath s q <-> p = q.
Proof.
  split; [|now intros ->]. unfold getAbsPath. apply append_inj_l.
Qed.

(** X2.  For a key under the working directory, resolving its relative
    path gives the key back; for a key outside it, [getRelPath] is the
    identity, so resolving again puts the prefix in front. *)
Theorem getAbsPath_getRelPath (s : Storage) (key : string) :
  (strings.HasPrefix key (strings.TrimPrefix (workDir s) "/") = true ->
   getAbsPath s (getRelPath s key) = key)
  /\ (strings.HasPrefix key (strings.TrimPrefix (workDir s) "/") = false ->
      getAbsPath s (getRelPath s key) = strings.TrimPrefix (workDir s) "/" ++ key).
Proof.
  unfold getAbsPath, getRelPath.
  set (prefix := strings.TrimPrefix (workDir s) "/").
  unfold strings.TrimPrefix. split; intros H; rewrite H.
  - now apply HasPrefix_split.
  - reflexivity.
Qed.

(** ** Delete, stat and create: the remaining cases *)

(** X3.  When [delete] reaches the backend, it returns nil exactly when
    [DeleteFile] returned nil or a [uerr.ServerError] value with code
    [NoSuchKey]; every other error of the backend is returned as it is. *)
Theorem delete_swallows_only_no_such_key (St : Type) (h : Handler St) (s : Storage)
  (path : string) (opt : pairStorageDelete.t) (st : St) (k : string) :
  snd (run h (delete s path opt) st) = [DeleteFile k] ->
  (fst (fst (run h (delete s path opt) st)) = None
   <-> fst (h (DeleteFile k) st) = None
       \/ exists e, fst (h (DeleteFile k) st) = Some (ServerError_value e)
                    /\ Code e = NoSuchKey)
  /\ (fst (fst (run h (delete s path opt) st)) <> None ->
      fst (fst (run h (delete s path opt) st)) = fst (h (DeleteFile k) st))
  /\ snd (fst (run h (delete s path opt) st)) = snd (h (DeleteFile k) st).
Proof.
  rewrite run_delete. destruct (_ && negb _); [discriminate|]. cbv zeta.
  destruct (h (DeleteFile _) st) as [err st1] eqn:E. simpl. intros [= <-].
  rewrite E. simpl.
  destruct err as [err|]; [|split; [tauto | split; [congruence | reflexivity]]].
  destruct err; simpl;
    try (split; [split; [discriminate | intros [H | (e' & H & _)]; discriminate]
                | split; [reflexivity | reflexivity]]).
  destruct (Z.eqb_spec (Code e) NoSuchKey) as [Hc|Hc].
  - split; [split; [right; eauto | reflexivity] | split; [congruence | reflexivity]].
  - split; [|split; reflexivity].
    split; [discriminate|]. intros [H | (e' & [= <-] & He')]; [discriminate | contradiction].
Qed.

Lemma delete_swallows_only_no_such_key_witness :
  fst (fst (run fake (delete dataStore "a.txt" fileMode) oneFile)) = None
  <-> fst (fake (DeleteFile "data/a.txt") oneFile) = None
      \/ exists e, fst (fake (DeleteFile "data/a.txt") oneFile) = Some (ServerError_value e)
                   /\ Code e = NoSuchKey.
Proof.
  exact (proj1 (@delete_swallows_only_no_such_key Fake fake dataStore "a.txt" fileMode
                  oneFile "data/a.txt" eq_refl)).
Defined.

(** X4.  Without virtual-directory support a directory-mode request
    never reaches the backend: [stat] and [delete] return
    [services.PairUnsupportedError] for the object-mode pair and make no
    call, and [create] returns nil. *)
Theorem dir_mode_needs_virtual_dir (P : TimeParser) (s : Storage) (path : string) :
  VirtualDir (features s) = false ->
  (forall opt : pairStorageCreate.t,
      pairStorageCreate.HasObjectMode opt = true ->
      ObjectModeMethods.IsDir (pairStorageCreate.ObjectMode opt) = true ->
      create s path opt = None)
  /\ (forall (St : Type) (h : Handler St) (st : St) (opt : pairStorageStat.t),
        pairStorageStat.HasObjectMode opt = true ->
        ObjectModeMethods.IsDir (pairStorageStat.ObjectMode opt) = true ->
        run h (stat s path opt) st
        = (inr (PairUnsupportedError (WithObjectMode (pairStorageStat.ObjectMode opt))),
           st, []))
  /\ (forall (St : Type) (h : Handler St) (st : St) (opt : pairStorageDelete.t),
        pairStorageDelete.HasObjectMode opt = true ->
        ObjectModeMethods.IsDir (pairStorageDelete.ObjectMode opt) = true ->
        run h (delete s path opt) st
        = (Some (PairUnsupportedError (WithObjectMode (pairStorageDelete.ObjectMode opt))),
           st, [])).
Proof.
  intros Hvd. split; [|split].
  - intros opt Hhas Hdir. unfold create. now rewrite Hhas, Hdir, Hvd.
  - intros St h st opt Hhas Hdir. now rewrite run_stat, Hhas, Hdir, Hvd.
  - intros St h st opt Hhas Hdir. now rewrite run_delete, Hhas, Hdir, Hvd.
Qed.

Lemma dir_mode_needs_virtual_dir_witness :
  create flatStore "dir" createDir = None
  /\ run fake (delete flatStore "dir" deleteDir) oneFile
     = (Some (PairUnsupportedError (WithObjectMode ModeDir)), oneFile, []).
Proof.
  destruct (@dir_mode_needs_virtual_dir httpdateParser flatStore "dir" eq_refl)
    as (Hcreate & _ & Hdelete).
  split; [apply Hcreate; reflexivity | apply Hdelete; reflexivity].
Defined.

(** X5.  [create] returns nil only for a directory request without
    virtual-directory support.  Otherwise the object keeps the caller's
    path as [Path]; a file object has mode Read, is not done, and its
    [ID] strips back to its [Path]; a directory object has mode Dir, is
    done, and its [ID] strips back to its [Path] followed by a slash. *)
Theorem create_object (s : Storage) (path : string) (opt : pairStorageCreate.t) :
  match create s path opt with
  | None =>
      pairStorageCreate.HasObjectMode opt = true
      /\ ObjectModeMethods.IsDir (pairStorageCreate.ObjectMode opt) = true
      /\ VirtualDir (features s) = false
  | Some o =>
      Path o = path
      /\ if pairStorageCreate.HasObjectMode opt
            && ObjectModeMethods.IsDir (pairStorageCreate.ObjectMode opt)
         then Mode o = ModeDir /\ done o = true
              /\ getRelPath s (ID o) = Path o ++ "/"
         else Mode o = ModeRead /\ done o = false
              /\ getRelPath s (ID o) = Path o
  end.
Proof.
  unfold create.
  destruct (pairStorageCreate.HasObjectMode opt) eqn:Hhas; simpl;
    [destruct (ObjectModeMethods.IsDir (pairStorageCreate.ObjectMode opt)) eqn:Hdir; simpl;
     [destruct (VirtualDir (features s)) eqn:Hvd; simpl|]|];
    try (repeat split; reflexivity);
    try (repeat split; unfold getRelPath, getAbsPath; apply TrimPrefix_app).
  repeat split. unfold getRelPath, getAbsPath. rewrite append_assoc. apply TrimPrefix_app.
Qed.

(** ** The object formatter, field by field *)

Lemma parseDigits_range (s : string) (n0 n : Z) :
  0 <= n0 -> strconv.parseDigits s n0 = inl n -> 0 <= n <= 2 ^ 64 - 1 \/ (s = "" /\ n = n0).
Proof.
  revert n0. induction s as [|c s IH]; intros n0 Hn0; cbn [strconv.parseDigits].
  - intros [= <-]. now right.
  - unfold strconv.digit.
    destruct ((48 <=? Z.of_N (N_of_ascii c)) && (Z.of_N (N_of_ascii c) <=? 57)) eqn:Hd;
      [|discriminate].
    apply andb_true_iff in Hd. destruct Hd as [Hlo Hhi].
    apply Z.leb_le in Hlo. apply Z.leb_le in Hhi.
    destruct (Z.ltb_spec (2 ^ 64 - 1) (n0 * 10 + (Z.of_N (N_of_ascii c) - 48)));
      [discriminate|].
    intros Hp. left.
    assert (Hn1 : 0 <= n0 * 10 + (Z.of_N (N_of_ascii c) - 48)) by lia.
    destruct (IH _ Hn1 Hp) as [Hr | [_ ->]]; [exact Hr | lia].
Qed.

(** [ParseInt] returns 64-bit signed values only. *)
Lemma ParseInt_range (s : string) (n : Z) :
  strconv.ParseInt s = inl n -> - 2 ^ 63 <= n < 2 ^ 63.
Proof.
  unfold strconv.ParseInt. destruct s as [|c rest]; [discriminate|].
  set (s := if (Ascii.eqb c "+" || Ascii.eqb c "-")%bool then rest else String c rest).
  unfold strconv.ParseUint10.
  assert (Hun : forall un, strconv.parseDigits s 0 = inl un -> s <> "" ->
                           0 <= un <= 2 ^ 64 - 1).
  { intros un Hp Hs. destruct (@parseDigits_range s 0 un (Z.le_refl 0) Hp) as [H | [H _]];
      [exact H | contradiction]. }
  destruct s as [|d s'] eqn:Es; [discriminate|]. rewrite <- Es in *.
  destruct (strconv.parseDigits s 0) as [un|[]] eqn:Hp; try discriminate.
  assert (Hs : s <> "") by (rewrite Es; discriminate).
  specialize (Hun un eq_refl Hs).
  change (2 ^ 64 - 1) with 18446744073709551615 in Hun.
  change (2 ^ 63) with 9223372036854775808.
  destruct (Ascii.eqb c "-"); cbn [negb andb].
  - destruct (Z.ltb_spec 9223372036854775808 un); [discriminate|]. intros [= <-]. lia.
  - destruct (Z.leb_spec 9223372036854775808 un); [discriminate|]. intros [= <-]. lia.
Qed.

Lemma formatFileObject_mode (s : Storage) (v : ObjectInfo) (o : Object) :
  formatFileObject s v = inl o -> Mode o = ModeRead.
Proof.
  unfold formatFileObject.
  destruct (strconv.ParseInt (Size v)) as [n|err]; [|discriminate].
  intros [= <-]. destruct (String.eqb (Etag v) ""); reflexivity.
Qed.

(** X6.  Every object the formatter returns has the entry's key as [ID],
    the key with the working directory stripped as [Path], mode Read,
    and is not done; its content length is the entry's size read as a
    signed 64-bit decimal, its last-modified time the entry's milliseconds
    divided by 1000 (truncated toward zero) as Unix seconds; the ETag is
    set only when the entry's is non-empty, the content type never, and
    the system metadata always, with the entry's storage class. *)
Theorem formatFileObject_fields (s : Storage) (v : ObjectInfo) (o : Object) :
  formatFileObject s v = inl o ->
  ID o = Key v
  /\ Path o = getRelPath s (Key v)
  /\ Mode o = ModeRead
  /\ done o = false
  /\ (exists n : Z, strconv.ParseInt (Size v) = inl n
                    /\ contentLength o = Some n
                    /\ - 2 ^ 63 <= n < 2 ^ 63)
  /\ lastModified o = Some (time.Unix (Z.quot (LastModified v) 1000) 0)
  /\ contentType o = None
  /\ etag o = (if String.eqb (Etag v) "" then None else Some (Etag v))
  /\ systemMetadata o = Some {| StorageClass := ObjectInfo_StorageClass v |}.
Proof.
  unfold formatFileObject.
  destruct (strconv.ParseInt (Size v)) as [n|err] eqn:Hn; [|discriminate].
  intros [= <-].
  assert (Hsm : (if String.eqb (ObjectInfo_StorageClass v) ""
                 then {| StorageClass := "" |}
                 else {| StorageClass := ObjectInfo_StorageClass v |})
                = {| StorageClass := ObjectInfo_StorageClass v |}).
  { destruct (String.eqb_spec (ObjectInfo_StorageClass v) "") as [-> |]; reflexivity. }
  rewrite Hsm.
  repeat split; try (destruct (String.eqb (Etag v) ""); reflexivity).
  exists n. repeat split; try (destruct (String.eqb (Etag v) ""); reflexivity);
    apply (ParseInt_range _ Hn).
Qed.

Lemma formatFileObject_fields_witness :
  exists o : Object,
    formatFileObject dataStore (entry "data/x/y") = inl o
    /\ ID o = "data/x/y" /\ Path o = "x/y" /\ etag o = Some "e".
Proof.
  eexists. split; [reflexivity|].
  pose proof (@formatFileObject_fields dataStore (entry "data/x/y") _ eq_refl)
    as (Hid & Hpath & _ & _ & _ & _ & _ & Hetag & _).
  split; [exact Hid|]. split; [exact Hpath | exact Hetag].
Defined.

(** ** Page fetches: calls, failures, partial pages *)

Lemma appendContents_extends (s : Storage) (vs : list ObjectInfo) (data : list Object) :
  exists added, fst (appendContents s vs data) = (data ++ added)%list.
Proof.
  revert data. induction vs as [|v vs IH]; intros data; simpl.
  - exists []. now rewrite app_nil_r.
  - destruct (formatFileObject s v) as [o|err]; simpl.
    + destruct (IH (data ++ [o])%list) as (added & ->).
      exists (o :: added). now rewrite <- app_assoc.
    + exists []. now rewrite app_nil_r.
Qed.

(** The trace of a page fetch. *)
Lemma page_fetch_trace (s : Storage) (St : Type) (h : Handler St) (st : St)
  (page : ObjectPage) :
  snd (run h (nextObjectPageByDir s page) st) = [listCall page]
  /\ snd (run h (nextObjectPageByPrefix s page) st) = [listCall page].
Proof.
  unfold nextObjectPageByDir, nextObjectPageByPrefix, listCall; simpl.
  destruct (h _ st) as [[output err] st1]; simpl.
  destruct err as [err|]; simpl; [split; reflexivity|].
  split.
  - destruct (appendContents _ _ _) as [data [err|]]; simpl;
      repeat match goal with
             | |- context [if ?b then _ else _] => destruct b
             end; reflexivity.
  - destruct (appendContents _ _ _) as [data [err|]]; simpl;
      repeat match goal with
             | |- context [if ?b then _ else _] => destruct b
             end; reflexivity.
Qed.

(** X7.  Whatever the backend answers, a page fetch in either mode makes
    exactly one call, [ListObjects] with the cursor's prefix, marker,
    delimiter and page size, and only ever appends to the page's data. *)
Theorem page_fetch_one_call (s : Storage) (St : Type) (h : Handler St) (st : St)
  (page : ObjectPage) (next : NextObjectFunc) :
  next = nextObjectPageByDir s \/ next = nextObjectPageByPrefix s ->
  snd (run h (next page) st) = [listCall page]
  /\ snd (fst (run h (next page) st)) = snd (h (listCall page) st)
  /\ exists added : list Object,
       Data (fst (fst (fst (run h (next page) st)))) = (Data page ++ added)%list.
Proof.
  intros [-> | ->]; unfold nextObjectPageByDir, nextObjectPageByPrefix, listCall;
    simpl; destruct (h _ st) as [[output err] st1]; simpl;
    (destruct err as [err|]; simpl;
     [repeat split; exists []; now rewrite app_nil_r|]).
  - rewrite appendPrefixes_map.
    destruct (appendContents_extends s (Contents output)
                (Data page ++ map (dirObject s) (CommonPrefixes output))%list)
      as (added & Hadd).
    destruct (appendContents _ _ _) as [data [err|]]; simpl in *; subst data;
      repeat match goal with
             | |- context [if ?b then _ else _] => destruct b
             end; simpl; repeat split; rewrite <- app_assoc; eauto.
  - destruct (appendContents_extends s (Contents output) (Data page)) as (added & Hadd).
    destruct (appendContents _ _ _) as [data [err|]]; simpl in *; subst data;
      repeat match goal with
             | |- context [if ?b then _ else _] => destruct b
             end; simpl; repeat split; eauto.
Qed.

Lemma page_fetch_one_call_witness :
  snd (run fake
         (nextObjectPageByPrefix dataStore
            {| Status := {| prefix := "data/"; maxKeys := 200;
                            delimiter := ""; marker := "m" |};
               Data := [] |}) fourPages)
  = [ListObjects "data/" "m" "" 200].
Proof.
  exact (proj1 (@page_fetch_one_call dataStore Fake fake fourPages
                  {| Status := {| prefix := "data/"; maxKeys := 200;
                                  delimiter := ""; marker := "m" |};
                     Data := [] |} _ (or_intror eq_refl))).
Defined.

(** X8.  When [ListObjects] fails, a page fetch in either mode returns
    the backend's error as it is and leaves the page, data and cursor,
    untouched, whatever the response record holds. *)
Theorem page_fetch_backend_error (s : Storage) (St : Type) (h : Handler St) (st st1 : St)
  (page : ObjectPage) (output : ListObjectsResponse) (err : error)
  (next : NextObjectFunc) :
  next = nextObjectPageByDir s \/ next = nextObjectPageByPrefix s ->
  h (listCall page) st = ((output, Some err), st1) ->
  run h (next page) st = ((page, Some err), st1, [listCall page]).
Proof.
  intros [-> | ->] Hans; unfold nextObjectPageByDir, nextObjectPageByPrefix;
    unfold listCall in Hans; simpl; rewrite Hans; reflexivity.
Qed.

Lemma page_fetch_backend_error_witness :
  run fake
    (nextObjectPageByDir dataStore
       {| Status := {| prefix := "data/"; maxKeys := 200; delimiter := "/"; marker := "" |};
          Data := [] |}) oneFile
  = (({| Status := {| prefix := "data/"; maxKeys := 200; delimiter := "/"; marker := "" |};
         Data := [] |}, Some (errorString "no more pages")), oneFile,
     [ListObjects "data/" "" "/" 200]).
Proof.
  exact (@page_fetch_backend_error dataStore Fake fake oneFile oneFile
           {| Status := {| prefix := "data/"; maxKeys := 200;
                           delimiter := "/"; marker := "" |};
              Data := [] |}
           noResponse (errorString "no more pages") _ (or_introl eq_refl) eq_refl).
Defined.

Lemma appendContents_stops (s : Storage) (good rest : list ObjectInfo) (bad : ObjectInfo)
  (files data : list Object) (err : error) :
  formatAll s good = inl files ->
  formatFileObject s bad = inr err ->
  appendContents s (good ++ bad :: rest) data = ((data ++ files)%list, Some err).
Proof.
  revert data files. induction good as [|v good IH]; intros data files; simpl.
  - intros [= <-] ->. now rewrite app_nil_r.
  - destruct (formatFileObject s v) as [o|e]; [|discriminate].
    destruct (formatAll s good) as [os|e]; [|discriminate].
    intros [= <-] Hbad. rewrite (IH _ os eq_refl Hbad), <- app_assoc. reflexivity.
Qed.

(** X9.  When a content entry does not format, the page fetch stops at
    it: it returns the formatter's error, leaves the cursor as it was
    even for a truncated response, and the page keeps what was appended
    before the bad entry (in directory mode, all directory objects and
    the files before it); the entries after it are not looked at. *)
Theorem page_fetch_format_error (s : Storage) (St : Type) (h : Handler St) (st st1 : St)
  (page : ObjectPage) (output : ListObjectsResponse)
  (good rest : list ObjectInfo) (bad : ObjectInfo) (files : list Object) (err : error) :
  h (listCall page) st = ((output, None), st1) ->
  Contents output = (good ++ bad :: rest)%list ->
  formatAll s good = inl files ->
  formatFileObject s bad = inr err ->
  run h (nextObjectPageByDir s page) st
  = (({| Status := Status page;
         Data := (Data page ++ map (dirObject s) (CommonPrefixes output) ++ files)%list |},
      Some err), st1, [listCall page])
  /\ run h (nextObjectPageByPrefix s page) st
     = (({| Status := Status page; Data := (Data page ++ files)%list |}, Some err),
        st1, [listCall page]).
Proof.
  intros Hans Hcont Hgood Hbad. unfold listCall in *.
  unfold nextObjectPageByDir, nextObjectPageByPrefix. simpl. rewrite Hans, Hcont.
  rewrite appendPrefixes_map.
  rewrite !(fun data => @appendContents_stops s good rest bad files data err Hgood Hbad).
  rewrite <- app_assoc. split; reflexivity.
Qed.

Lemma page_fetch_format_error_witness :
  exists (o1 d1 : Object) (f n : string) (c : NumErrCause),
    run fake (nextObjectPageByDir dataStore firstPage) badPage
    = (({| Status := Status firstPage; Data := [d1; o1] |}, Some (NumError f n c)),
       played badPage, [listCall firstPage])
    /\ run fake (nextObjectPageByPrefix dataStore firstPage) badPage
       = (({| Status := Status firstPage; Data := [o1] |}, Some (NumError f n c)),
          played badPage, [listCall firstPage]).
Proof.
  do 5 eexists.
  apply (@page_fetch_format_error dataStore Fake fake badPage (played badPage) firstPage
           badResponse [entry "data/a"] [entry "data/c"] badEntry); reflexivity.
Defined.

(** X10.  A prefix-mode page fetch takes nothing from the response's
    common prefixes: for a backend answer whose entries format, it
    appends exactly the formatter's objects for the content entries, in
    order, and none of them is a directory object. *)
Theorem prefix_page_contents (s : Storage) (St : Type) (h : Handler St) (st st1 : St)
  (page : ObjectPage) (output : ListObjectsResponse) :
  h (listCall page) st = ((output, None), st1) ->
  formats s (Contents output) = true ->
  exists files : list Object,
    Data (fst (fst (fst (run h (nextObjectPageByPrefix s page) st))))
      = (Data page ++ files)%list
    /\ Forall2 (fun v o => formatFileObject s v = inl o) (Contents output) files
    /\ Forall (fun o => ObjectModeMethods.IsDir (Mode o) = false
                        /\ ObjectModeMethods.IsRead (Mode o) = true) files.
Proof.
  intros Hans Hfmt. destruct (formats_formatAll _ _ Hfmt) as (files & Hfiles).
  exists files.
  rewrite (@run_nextObjectPageByPrefix _ h s page st st1 output files Hans Hfiles).
  pose proof (formatAll_length _ _ Hfiles) as Hfs.
  repeat split; auto.
  clear - Hfs. induction Hfs as [|v o vs os Hv _ IH]; constructor; auto.
  apply formatFileObject_mode in Hv. rewrite Hv. split; reflexivity.
Qed.

Lemma prefix_page_contents_witness :
  exists files : list Object,
    Data (fst (fst (fst (run fake (nextObjectPageByPrefix dataStore firstPage) fourPages))))
      = ([] ++ files)%list
    /\ Forall2 (fun v o => formatFileObject dataStore v = inl o)
               [entry "data/a"; entry "data/b"] files
    /\ Forall (fun o => ObjectModeMethods.IsDir (Mode o) = false
                        /\ ObjectModeMethods.IsRead (Mode o) = true) files.
Proof.
  apply (@prefix_page_contents dataStore Fake fake fourPages
           {| keys := keys fourPages; script := tl (script fourPages);
              header := header fourPages; body := body fourPages |}
           firstPage (hd noResponse (script fourPages))); reflexivity.
Defined.

(** X11.  [list] without a list mode lists by prefix.  With a mode it
    lists by directory when the Dir bit is set, also when the Prefix bit
    is set too, by prefix when only the Prefix bit is set, and fails with
    [services.ListModeInvalidError] for the mode when neither is.  The
    iterator starts with an empty page and the cursor at the resolved
    path, page size 200, an empty marker, and the delimiter [/] in
    directory mode only; its first fetch asks the backend for exactly
    that.  In numbers: mode 2 (Prefix) lists by prefix, mode 3 (Dir and
    Prefix) by directory, and modes 0, 4 (Part), 8 (Block) and 12 are
    invalid. *)
Theorem list_modes (s : Storage) (path : string) (opt : pairStorageList.t) :
  (match Storage_list s path opt with
  | inr err =>
      pairStorageList.HasListMode opt = true
      /\ ListModeMethods.IsDir (pairStorageList.ListMode opt) = false
      /\ ListModeMethods.IsPrefix (pairStorageList.ListMode opt) = false
      /\ err = ListModeInvalidError (pairStorageList.ListMode opt)
  | inl it =>
      let dir := pairStorageList.HasListMode opt
                 && ListModeMethods.IsDir (pairStorageList.ListMode opt) in
      (pairStorageList.HasListMode opt = false
       \/ ListModeMethods.IsDir (pairStorageList.ListMode opt) = true
       \/ ListModeMethods.IsPrefix (pairStorageList.ListMode opt) = true)
      /\ next it = (if dir then nextObjectPageByDir s else nextObjectPageByPrefix s)
      /\ o it = {| Status := {| prefix := getAbsPath s path; maxKeys := 200;
                                delimiter := if dir then "/" else ""; marker := "" |};
                   Data := [] |}
      /\ forall (St : Type) (h : Handler St) (st : St),
           snd (run h (next it (o it)) st)
           = [ListObjects (getAbsPath s path) "" (if dir then "/" else "") 200]
   end)
  /\ Storage_list s path
       {| pairStorageList.HasListMode := true; pairStorageList.ListMode := 2 |}
     = inl {| next := nextObjectPageByPrefix s;
              o := {| Status := {| prefix := getAbsPath s path; maxKeys := 200;
                                   delimiter := ""; marker := "" |};
                      Data := [] |} |}
  /\ Storage_list s path
       {| pairStorageList.HasListMode := true; pairStorageList.ListMode := 3 |}
     = inl {| next := nextObjectPageByDir s;
              o := {| Status := {| prefix := getAbsPath s path; maxKeys := 200;
                                   delimiter := "/"; marker := "" |};
                      Data := [] |} |}
  /\ (forall m : ListMode,
        In m [0; 4; 8; 12] ->
        Storage_list s path
          {| pairStorageList.HasListMode := true; pairStorageList.ListMode := m |}
        = inr (ListModeInvalidError m)).
Proof.
  split; [|split; [reflexivity|split; [reflexivity|]]];
    [|intros m [<- | [<- | [<- | [<- | []]]]]; reflexivity].
  unfold Storage_list.
  destruct (pairStorageList.HasListMode opt); cbn [negb andb].
  - destruct (ListModeMethods.IsDir (pairStorageList.ListMode opt)) eqn:Hdir.
    + cbv zeta. unfold NewObjectIterator. cbn [next o prefix maxKeys marker].
      repeat split; auto. intros St h st.
      exact (proj1 (page_fetch_trace s h st _)).
    + destruct (ListModeMethods.IsPrefix (pairStorageList.ListMode opt)) eqn:Hpre.
      * cbv zeta. unfold NewObjectIterator. cbn [next o prefix maxKeys marker].
        repeat split; auto. intros St h st.
        exact (proj2 (page_fetch_trace s h st _)).
      * repeat split; reflexivity.
  - change (ListModeMethods.IsDir ListModePrefix) with false.
    change (ListModeMethods.IsPrefix ListModePrefix) with true.
    cbv zeta. unfold NewObjectIterator. cbn [next o prefix maxKeys marker].
    repeat split; auto. intros St h st.
    exact (proj2 (page_fetch_trace s h st _)).
Qed.

(** ** Stat: the object and the failure of the head request *)

(** X12.  When the head request succeeds and [stat] returns an object,
    its [ID] is the key that was asked for, its [Path] the caller's
    path, it is done, and its mode is Dir for a directory request and
    Read otherwise.  Each optional attribute is set exactly when its
    header is present: the content length and the last-modified time as
    parsed, the content type and the ETag as they stand; the system
    metadata is always set, with the storage-class header's value. *)
Theorem stat_object (P : TimeParser) (s : Storage) (St : Type) (h : Handler St) (st : St)
  (path : string) (opt : pairStorageStat.t) (k : string) (o : Object) :
  snd (run h (stat s path opt) st) = [HeadFile k; LastResponseHeader] ->
  fst (fst (run h (stat s path opt) st)) = inl o ->
  ID o = k /\ Path o = path /\ done o = true
  /\ Mode o = (if pairStorageStat.HasObjectMode opt
                  && ObjectModeMethods.IsDir (pairStorageStat.ObjectMode opt)
               then ModeDir else ModeRead)
  /\ contentLength o
     = (let v := Get (fst (h LastResponseHeader (snd (h (HeadFile k) st)))) "Content-Length" in
        if String.eqb v "" then None
        else match strconv.ParseInt v with inl n => Some n | inr _ => None end)
  /\ lastModified o
     = (let v := Get (fst (h LastResponseHeader (snd (h (HeadFile k) st)))) "Last-Modified" in
        if String.eqb v "" then None
        else match time_Parse time.RFC1123 v with inl t => Some t | inr _ => None end)
  /\ contentType o
     = (let v := Get (fst (h LastResponseHeader (snd (h (HeadFile k) st)))) "Content-Type" in
        if String.eqb v "" then None else Some v)
  /\ etag o
     = (let v := Get (fst (h LastResponseHeader (snd (h (HeadFile k) st)))) "ETag" in
        if String.eqb v "" then None else Some v)
  /\ systemMetadata o
     = Some {| StorageClass :=
                 Get (fst (h LastResponseHeader (snd (h (HeadFile k) st))))
                     "X-Ufile-Storage-Class" |}.
Proof.
  rewrite run_stat. destruct (_ && negb _); [discriminate|]. cbv zeta.
  destruct (h (HeadFile _) st) as [[e|] st1] eqn:E; [discriminate|].
  destruct (h LastResponseHeader st1) as [output st2] eqn:E2. simpl.
  intros [= <-]. rewrite E. simpl. rewrite E2. simpl.
  unfold statHeaders, statObject, Get.
  destruct (String.eqb_spec (output "Content-Length") "");
    destruct (String.eqb_spec (output "Last-Modified") "");
    destruct (String.eqb_spec (output "Content-Type") "");
    destruct (String.eqb_spec (output "ETag") "");
    destruct (String.eqb_spec (output "X-Ufile-Storage-Class") "") as [Hsc|Hsc];
    try rewrite Hsc;
    try destruct (strconv.ParseInt (output "Content-Length"));
    try destruct (time_Parse time.RFC1123 (output "Last-Modified"));
    try discriminate;
    intros [= <-];
    destruct (pairStorageStat.HasObjectMode opt
              && ObjectModeMethods.IsDir (pairStorageStat.ObjectMode opt));
    repeat split; reflexivity.
Qed.

Lemma stat_object_witness :
  exists o : Object,
    fst (fst (run fake (@stat httpdateParser dataStore "a.txt" statFile) oneFile)) = inl o
    /\ ID o = "data/a.txt" /\ Path o = "a.txt" /\ done o = true
    /\ contentType o = None /\ etag o = None
    /\ systemMetadata o = Some {| StorageClass := "" |}.
Proof.
  eexists. split; [reflexivity|].
  pose proof (@stat_object httpdateParser dataStore Fake fake oneFile "a.txt" statFile
                "data/a.txt" _ eq_refl eq_refl)
    as (Hid & Hpath & Hdone & _ & _ & _ & Hct & Hetag & Hsm).
  repeat split; assumption.
Defined.

(** X13.  When the head request fails, [stat] returns the backend's
    error as it is, builds no object and does not read the response
    header. *)
Theorem stat_head_error (P : TimeParser) (s : Storage) (St : Type) (h : Handler St)
  (st : St) (path : string) (opt : pairStorageStat.t) (k : string) (e : error) :
  hd_error (snd (run h (stat s path opt) st)) = Some (HeadFile k) ->
  fst (h (HeadFile k) st) = Some e ->
  run h (stat s path opt) st = (inr e, snd (h (HeadFile k) st), [HeadFile k]).
Proof.
  rewrite run_stat. destruct (_ && negb _); [discriminate|]. cbv zeta.
  destruct (h (HeadFile _) st) as [[e'|] st1] eqn:E; simpl.
  - intros [= <-]. rewrite E. simpl. now intros [= ->].
  - destruct (h LastResponseHeader st1) as [output st2]. simpl.
    intros [= <-]. rewrite E. discriminate.
Qed.

Lemma stat_head_error_witness :
  run fake (@stat httpdateParser dataStore "gone.txt" statFile) oneFile
  = (inr noSuchKey, oneFile, [HeadFile "data/gone.txt"]).
Proof.
  exact (@stat_head_error httpdateParser dataStore Fake fake oneFile "gone.txt" statFile
           "data/gone.txt" noSuchKey eq_refl eq_refl).
Defined.

(** ** The normalizer on a server error held by value *)

(** X14.  [delete] and [formatError] never agree on a backend error:
    an error that [delete] swallows is one [formatError] wraps as
    unexpected, and an error that [formatError] wraps as object-not-exist
    or permission-denied is one [delete] returns to its caller.  The
    first matches [uerr.ServerError] by value, the second by pointer. *)
Theorem delete_formatError_disjoint (F : ErrorFormats) (St : Type) (h : Handler St)
  (s : Storage) (path : string) (opt : pairStorageDelete.t) (st : St)
  (k : string) (err : error) :
  snd (run h (delete s path opt) st) = [DeleteFile k] ->
  fst (h (DeleteFile k) st) = Some err ->
  (fst (fst (run h (delete s path opt) st)) = None ->
   errors.Unwrap (formatError err) = Some services.ErrUnexpected)
  /\ (errors.Unwrap (formatError err) = Some services.ErrObjectNotExist
      \/ errors.Unwrap (formatError err) = Some services.ErrPermissionDenied ->
      fst (fst (run h (delete s path opt) st)) = Some err).
Proof.
  rewrite run_delete. destruct (_ && negb _); [discriminate|]. cbv zeta.
  destruct (h (DeleteFile _) st) as [r st1] eqn:E. simpl. intros [= <-].
  rewrite E. simpl. intros ->.
  destruct err; simpl; try (split; [discriminate | reflexivity]);
    try (split; [discriminate | intros [H | H]; discriminate]).
  - destruct (Code e =? NoSuchKey); split; try reflexivity; try discriminate;
      intros [H | H]; discriminate.
Qed.

Lemma delete_formatError_disjoint_witness :
  (fst (fst (run fake (delete dataStore "gone.txt" fileMode) oneFile)) = None ->
   errors.Unwrap (@formatError plainFormats noSuchKey) = Some services.ErrUnexpected)
  /\ (errors.Unwrap (@formatError plainFormats noSuchKey) = Some services.ErrObjectNotExist
      \/ errors.Unwrap (@formatError plainFormats noSuchKey)
         = Some services.ErrPermissionDenied ->
      fst (fst (run fake (delete dataStore "gone.txt" fileMode) oneFile)) = Some noSuchKey).
Proof.
  exact (@delete_formatError_disjoint plainFormats Fake fake dataStore "gone.txt" fileMode
           oneFile "data/gone.txt" noSuchKey eq_refl eq_refl).
Defined.

(** ** Write *)

Lemma substring_prefix (n : nat) (b : string) :
  exists rest, b = substring 0 n b ++ rest.
Proof.
  revert b. induction n as [|n IH]; intros b.
  - exists b. now destruct b.
  - destruct b as [|c b]; simpl; [now exists ""|].
    destruct (IH b) as (rest & Hrest). exists rest. now rewrite <- Hrest.
Qed.

Lemma substring_length (n : nat) (b : string) :
  String.length (substring 0 n b) = Nat.min n (String.length b).
Proof.
  revert b. induction n as [|n IH]; intros b.
  - now destruct b.
  - destruct b as [|c b]; simpl; [reflexivity | now rewrite IH].
Qed.

Lemma substring_empty (k : nat) : substring 0 k "" = "".
Proof. now destruct k. Qed.

Lemma from_short (m : nat) (b : string) :
  (String.length b <= m)%nat -> strings.from m b = "".
Proof.
  revert b. induction m as [|m IH]; intros b Hb.
  - destruct b; [reflexivity | simpl in Hb; lia].
  - destruct b as [|c b]; [reflexivity|]. simpl in *. apply IH. lia.
Qed.

Lemma substring_split (m n : nat) (b : string) :
  substring 0 (m + n) b = substring 0 m b ++ substring 0 n (strings.from m b).
Proof.
  revert b. induction m as [|m IH]; intros b.
  - now destruct b.
  - destruct b as [|c b].
    + now destruct n.
    + simpl. now rewrite IH.
Qed.

Lemma append_empty_r (a : string) : a ++ "" = a.
Proof. induction a as [|c a IH]; simpl; [reflexivity | now rewrite IH]. Qed.

Lemma append_eq_empty (a b : string) : a ++ b = "" -> a = "" /\ b = "".
Proof. destruct a; simpl; [auto | discriminate]. Qed.

Lemma firstBytes_empty (n : Z) : firstBytes n "" = "".
Proof. unfold firstBytes. destruct (n <=? 0); [reflexivity | apply substring_empty]. Qed.

(** One read of a limited reader takes its bytes off the front of what
    the reader still has to deliver, and leaves the callback record
    alone; it reports end of file only when nothing is left. *)
Lemma Read_limited (R : string) (N : Z) (len : nat) (seen : list string) :
  exists (p : string) (eof : bool) (R' : string) (N' : Z),
    Read (LimitedReader R N) len seen = ((p, eof), LimitedReader R' N', seen)
    /\ firstBytes N R = p ++ firstBytes N' R'
    /\ (eof = true -> firstBytes N R = "").
Proof.
  cbn [Read]. destruct (Z.leb_spec N 0) as [HN|HN].
  - exists "", true, R, N. repeat split; try intros _; unfold firstBytes;
      destruct (Z.leb_spec N 0); try reflexivity; lia.
  - destruct R as [|a R0].
    + exists "", true, "", N. repeat split; try intros _; apply firstBytes_empty.
    + set (R := String a R0). set (n := Z.to_nat N).
      set (m := Nat.min len n).
      exists (substring 0 m R), false, (strings.from m R),
             (N - Z.of_nat (String.length (substring 0 m R))).
      split; [reflexivity|]. split; [|discriminate].
      assert (Hm : (m <= n)%nat) by (unfold m; lia).
      unfold firstBytes at 1. destruct (Z.leb_spec N 0); [lia|]. fold n.
      replace n with (m + (n - m))%nat at 1 by lia.
      rewrite substring_split. f_equal.
      rewrite substring_length.
      destruct (Nat.le_gt_cases (String.length R) m) as [Hshort|Hlong].
      * rewrite (from_short _ Hshort), firstBytes_empty. apply substring_empty.
      * replace (Nat.min m (String.length R)) with m by lia.
        unfold firstBytes. destruct (Z.leb_spec (N - Z.of_nat m) 0).
        -- replace (n - m)%nat with 0%nat by (unfold n; lia).
           now destruct (strings.from m R).
        -- f_equal. unfold n. lia.
Qed.

Lemma reads_writeReader (cb : option Callback) (lens : list nat) :
  forall (R : string) (N : Z) (seen : list string),
  exists (cs : list (string * bool)) (R' : string) (N' : Z),
    reads (writeReader cb R N) lens seen
    = (cs, writeReader cb R' N',
       match cb with
       | Some fn => fold_left (fun acc c => fn (fst c) acc) cs seen
       | None => seen
       end)
    /\ firstBytes N R = joined cs ++ firstBytes N' R'
    /\ (Exists (fun c => snd c = true) cs -> firstBytes N' R' = "").
Proof.
  induction lens as [|len lens IH]; intros R N seen.
  - exists [], R, N. repeat split.
    + now destruct cb.
    + intros H. inversion H.
  - destruct (Read_limited R N len seen) as (p & eof & R1 & N1 & Hread & Hsplit & Heof).
    assert (Hstep : Read (writeReader cb R N) len seen
                    = ((p, eof), writeReader cb R1 N1,
                       match cb with Some fn => fn p seen | None => seen end)).
    { destruct cb as [fn|]; [|exact Hread].
      unfold writeReader. cbn [Read]. cbn [Read] in Hread. now rewrite Hread. }
    destruct (IH R1 N1 (match cb with Some fn => fn p seen | None => seen end))
      as (cs & R' & N' & Hrest & Hsplit' & Heof').
    exists ((p, eof) :: cs), R', N'. cbn [reads]. rewrite Hstep, Hrest.
    split; [now destruct cb|]. split.
    + cbn [joined fold_right fst]. fold (joined cs).
      rewrite Hsplit, Hsplit'. apply eq_sym, append_assoc.
    + intros H. inversion H as [c l Hc | c l Hl]; subst.
      * cbn [snd] in Hc. rewrite (Heof Hc) in Hsplit.
        symmetry in Hsplit. apply append_eq_empty in Hsplit.
        destruct Hsplit as [_ H1]. rewrite H1 in Hsplit'.
        symmetry in Hsplit'. apply append_eq_empty in Hsplit'. tauto.
      * now apply Heof'.
Qed.

(** X15.  [write] hands the backend, under the resolved key and with an
    empty MIME type, a reader over the first [size] bytes of the input
    (none when [size] is not positive): whatever buffer sizes the
    backend reads with, the bytes it gets are, joined, a prefix of those
    bytes, and all of them once a read has reported end of file.  The
    caller's callback, when there is one, is called after every read
    with exactly the slice read.  When [IOPut] succeeds [write] returns
    the declared [size], also when the input was shorter; when [IOPut]
    fails it returns zero and the error. *)
Theorem write_limits_input (St : Type)
  (IOPut : Reader -> string -> string -> St -> option error * St)
  (s : Storage) (path : string) (r : string) (size : Z)
  (opt : pairStorageWrite.t) (st : St) :
  exists rd : Reader,
    write IOPut s path r size opt st
    = (match fst (IOPut rd (getAbsPath s path) "" st) with
       | Some e => (0, Some e)
       | None => (size, None)
       end, snd (IOPut rd (getAbsPath s path) "" st))
    /\ (forall (lens : list nat) (seen : list string),
          (exists rest : string,
              firstBytes size r = joined (fst (fst (reads rd lens seen))) ++ rest)
          /\ (Exists (fun c => snd c = true) (fst (fst (reads rd lens seen))) ->
              joined (fst (fst (reads rd lens seen))) = firstBytes size r)
          /\ snd (reads rd lens seen)
             = (if pairStorageWrite.HasIoCallback opt
                then fold_left (fun acc c => pairStorageWrite.IoCallback opt (fst c) acc)
                       (fst (fst (reads rd lens seen))) seen
                else seen))
    /\ (exists rest : string, r = firstBytes size r ++ rest)
    /\ Z.of_nat (String.length (firstBytes size r))
       = Z.min (Z.max size 0) (Z.of_nat (String.length r)).
Proof.
  exists (writeReader (if pairStorageWrite.HasIoCallback opt
                       then Some (pairStorageWrite.IoCallback opt) else None) r size).
  split.
  { unfold write, writeReader.
    destruct (pairStorageWrite.HasIoCallback opt);
      destruct (IOPut _ _ _ st) as [[e|] st']; reflexivity. }
  split.
  { intros lens seen.
    destruct (reads_writeReader
                (if pairStorageWrite.HasIoCallback opt
                 then Some (pairStorageWrite.IoCallback opt) else None) lens r size seen)
      as (cs & R' & N' & -> & Hsplit & Heof).
    cbn [fst snd]. split; [eauto|]. split.
    - intros H. rewrite Hsplit, (Heof H). apply eq_sym, append_empty_r.
    - now destruct (pairStorageWrite.HasIoCallback opt). }
  unfold firstBytes. destruct (Z.leb_spec size 0).
  - split; [now exists r | simpl; lia].
  - split; [apply substring_prefix | rewrite substring_length; lia].
Qed.

Lemma write_limits_input_witness :
  reads (CallbackifyReader (LimitedReader "hello" 3) observe) [2; 2; 2]%nat []
  = ([("he", false); ("l", false); ("", true)],
     CallbackifyReader (LimitedReader "lo" 0) observe,
     ["he"; "l"; ""])
  /\ exists rd : Reader,
       write examplePut dataStore "w.txt" "hello" 3 plainWrite oneFile
       = (match fst (examplePut rd (getAbsPath dataStore "w.txt") "" oneFile) with
          | Some e => (0, Some e)
          | None => (3, None)
          end, snd (examplePut rd (getAbsPath dataStore "w.txt") "" oneFile)).
Proof.
  split; [reflexivity|].
  destruct (@write_limits_input Fake examplePut dataStore "w.txt" "hello" 3 plainWrite oneFile)
    as (rd & Hwrite & _).
  exists rd. exact Hwrite.
Defined.

Example write_short_input :
  write examplePut dataStore "w.txt" "hello" 3 plainWrite oneFile
  = ((3, None), {| keys := "data/w.txt" :: keys oneFile; script := [];
                   header := header oneFile; body := "hel" |})
  /\ fst (write examplePut dataStore "w.txt" "hi" 10 plainWrite oneFile) = (10, None).
Proof. split; reflexivity. Qed.

(** ** Construction *)

Section ConstructionFacts.

Variables Pairs Client : Type.
Variable parsePairServiceNew : Pairs -> pairServiceNew.t + error.
Variable parsePairStorageNew : Pairs -> pairStorageNew.t + error.
Variable credential_Parse : string -> credential.Provider + error.
Variable endpoint_Parse : string -> endpoint.Endpoint + error.
Variable NewFileRequest : Config -> Client + error.
Context {F : ErrorFormats}.

(** X16.  A credential whose protocol is not hmac makes [newServicer]
    fail with a [services.InitError] that carries
    [services.PairUnsupportedError] for the credential pair; with an hmac
    credential, an endpoint whose protocol is neither http nor https
    makes it fail likewise for the endpoint pair.  Neither result depends
    on the endpoint parser (for the credential) or on the SDK's client
    constructor: the client is not built. *)
Theorem newServicer_rejects_protocols (pairs : Pairs) (opt : pairServiceNew.t)
  (cp : credential.Provider) :
  parsePairServiceNew pairs = inl opt ->
  credential_Parse (pairServiceNew.Credential opt) = inl cp ->
  (credential.Protocol cp <> credential.ProtocolHmac ->
   newServicer parsePairServiceNew credential_Parse endpoint_Parse NewFileRequest pairs
   = inr {| Op := "new_servicer"; InitError_Type := Type_;
            Err := servicePairUnsupported (WithCredential (pairServiceNew.Credential opt));
            InitError_Pairs := pairs |})
  /\ (forall ep : endpoint.Endpoint,
        credential.Protocol cp = credential.ProtocolHmac ->
        endpoint_Parse (pairServiceNew.Endpoint opt) = inl ep ->
        endpoint.Protocol ep <> endpoint.ProtocolHTTP ->
        endpoint.Protocol ep <> endpoint.ProtocolHTTPS ->
        newServicer parsePairServiceNew credential_Parse endpoint_Parse NewFileRequest pairs
        = inr {| Op := "new_servicer"; InitError_Type := Type_;
                 Err := servicePairUnsupported (WithEndpoint (pairServiceNew.Endpoint opt));
                 InitError_Pairs := pairs |}).
Proof.
  intros Hopt Hcp. unfold newServicer, newServicer_body. rewrite Hopt, Hcp. split.
  - intros Hp. destruct (String.eqb_spec (credential.Protocol cp) credential.ProtocolHmac);
      [contradiction | reflexivity].
  - intros ep Hp Hep H1 H2. rewrite Hp, Hep. simpl.
    destruct (credential.Hmac cp) as [ak sk].
    destruct (String.eqb_spec (endpoint.Protocol ep) endpoint.ProtocolHTTP); [contradiction|].
    destruct (String.eqb_spec (endpoint.Protocol ep) endpoint.ProtocolHTTPS); [contradiction|].
    reflexivity.
Qed.

(** X17.  When [newServicer] succeeds, the pairs parsed, the credential
    is an hmac one, the endpoint is http or https, and the service's
    client is what the SDK built from the credential's access and secret
    keys, the endpoint's URL for its protocol, and the bucket host
    [api.ucloud.cn]. *)
Theorem newServicer_success (pairs : Pairs) (srv : Service Client) :
  newServicer parsePairServiceNew credential_Parse endpoint_Parse NewFileRequest pairs
  = inl srv ->
  exists (opt : pairServiceNew.t) (cp : credential.Provider) (ep : endpoint.Endpoint),
    parsePairServiceNew pairs = inl opt
    /\ credential_Parse (pairServiceNew.Credential opt) = inl cp
    /\ credential.Protocol cp = credential.ProtocolHmac
    /\ endpoint_Parse (pairServiceNew.Endpoint opt) = inl ep
    /\ (endpoint.Protocol ep = endpoint.ProtocolHTTP
        \/ endpoint.Protocol ep = endpoint.ProtocolHTTPS)
    /\ NewFileRequest
         {| PublicKey := fst (credential.Hmac cp);
            PrivateKey := snd (credential.Hmac cp);
            FileHost := if String.eqb (endpoint.Protocol ep) endpoint.ProtocolHTTP
                        then endpoint.HTTP ep else endpoint.HTTPS ep;
            BucketHost := "api.ucloud.cn" |}
       = inl (service srv).
Proof.
  unfold newServicer, newServicer_body.
  destruct (parsePairServiceNew pairs) as [opt|e] eqn:Hopt; [|discriminate].
  destruct (credential_Parse _) as [cp|e] eqn:Hcp; [|discriminate].
  destruct (String.eqb_spec (credential.Protocol cp) credential.ProtocolHmac) as [Hp|];
    [|discriminate]. simpl.
  destruct (credential.Hmac cp) as [ak sk] eqn:Hh.
  destruct (endpoint_Parse _) as [ep|e] eqn:Hep; [|discriminate].
  destruct (String.eqb (endpoint.Protocol ep) endpoint.ProtocolHTTP) eqn:H1.
  - destruct (NewFileRequest _) as [c|e] eqn:Hc; [|discriminate]. intros [= <-].
    exists opt, cp, ep. rewrite Hh, H1. apply String.eqb_eq in H1.
    repeat split; auto.
  - destruct (String.eqb (endpoint.Protocol ep) endpoint.ProtocolHTTPS) eqn:H2;
      [|discriminate].
    destruct (NewFileRequest _) as [c|e] eqn:Hc; [|discriminate]. intros [= <-].
    exists opt, cp, ep. rewrite Hh, H1. apply String.eqb_eq in H2.
    repeat split; auto.
Qed.

(** X18.  A failure of [newServicerAndStorager] is a
    [services.InitError] that carries the pairs it was given and names
    the stage that failed: the servicer's own error, returned as it is and
    not wrapped a second time, or, when the servicer was built, the
    normalized error of the storage options under [new_storager].  It
    succeeds exactly with the results of the two stages. *)
Theorem newServicerAndStorager_stages (pairs : Pairs) :
  match newServicerAndStorager parsePairServiceNew parsePairStorageNew
          credential_Parse endpoint_Parse NewFileRequest pairs with
  | inr ie =>
      InitError_Pairs ie = pairs /\ InitError_Type ie = Type_
      /\ ((Op ie = "new_servicer"
           /\ newServicer parsePairServiceNew credential_Parse endpoint_Parse
                NewFileRequest pairs = inr ie)
          \/ (Op ie = "new_storager"
              /\ exists (srv : Service Client) (err : error),
                   newServicer parsePairServiceNew credential_Parse endpoint_Parse
                     NewFileRequest pairs = inl srv
                   /\ parsePairStorageNew pairs = inr err
                   /\ Err ie = cause (formatError err)))
  | inl (srv, store) =>
      newServicer parsePairServiceNew credential_Parse endpoint_Parse NewFileRequest pairs
      = inl srv
      /\ newStorage parsePairStorageNew srv pairs = inl store
      /\ NewStorager parsePairServiceNew parsePairStorageNew credential_Parse
           endpoint_Parse NewFileRequest pairs = inl store
  end.
Proof.
  unfold NewStorager, newServicerAndStorager.
  destruct (newServicer _ _ _ _ pairs) as [srv|ie] eqn:Hsrv.
  - unfold newStorage. destruct (parsePairStorageNew pairs) as [opt|err] eqn:Hopt.
    + repeat split; reflexivity.
    + simpl. repeat split. right. split; [reflexivity|]. eauto.
  - unfold newServicer in Hsrv.
    destruct (newServicer_body _ _ _ _ pairs); [discriminate|].
    injection Hsrv as <-. simpl. repeat split. left. split; reflexivity.
Qed.

(** X19.  A storage built by [newStorage] has the bucket name of its
    options, the working directory [/] unless one was given, and no
    feature unless features were given.  With the default working
    directory every path resolves to itself in both directions; with the
    default features a directory-mode [create] returns nil. *)
Theorem newStorage_defaults (srv : Service Client) (pairs : Pairs) (store : Storage) :
  newStorage parsePairStorageNew srv pairs = inl store ->
  exists opt : pairStorageNew.t,
    parsePairStorageNew pairs = inl opt
    /\ bucket store = pairStorageNew.Name opt
    /\ workDir store = (if pairStorageNew.HasWorkDir opt
                        then pairStorageNew.WorkDir opt else "/")
    /\ features store = (if pairStorageNew.HasStorageFeatures opt
                         then pairStorageNew.StorageFeatures opt
                         else {| VirtualDir := false |})
    /\ (pairStorageNew.HasWorkDir opt = false ->
        forall p : string, getAbsPath store p = p /\ getRelPath store p = p)
    /\ (pairStorageNew.HasStorageFeatures opt = false ->
        forall (path : string) (copt : pairStorageCreate.t),
          pairStorageCreate.HasObjectMode copt = true ->
          ObjectModeMethods.IsDir (pairStorageCreate.ObjectMode copt) = true ->
          create store path copt = None).
Proof.
  unfold newStorage. destruct (parsePairStorageNew pairs) as [opt|err]; [|discriminate].
  intros [= <-]. exists opt. split; [reflexivity|].
  destruct (pairStorageNew.HasWorkDir opt), (pairStorageNew.HasStorageFeatures opt);
    simpl; repeat split; try discriminate; try reflexivity;
    intros _ path copt Hhas Hdir; unfold create; rewrite Hhas, Hdir; reflexivity.
Qed.

End ConstructionFacts.

Lemma newServicer_rejects_protocols_witness :
  newServicer exampleServiceParse exampleCredential exampleEndpoint exampleClient
    (F := plainFormats) filePairs
  = inr {| Op := "new_servicer"; InitError_Type := Type_;
           Err := servicePairUnsupported (WithCredential "file:ak:sk");
           InitError_Pairs := filePairs |}
  /\ newServicer exampleServiceParse exampleCredential exampleEndpoint exampleClient
       (F := plainFormats) ftpPairs
     = inr {| Op := "new_servicer"; InitError_Type := Type_;
              Err := servicePairUnsupported (WithEndpoint "ftp");
              InitError_Pairs := ftpPairs |}.
Proof.
  split.
  - apply (proj1 (@newServicer_rejects_protocols examplePairs Config exampleServiceParse
                    exampleCredential exampleEndpoint exampleClient plainFormats filePairs
                    (fst filePairs) _ eq_refl eq_refl)).
    discriminate.
  - apply (proj2 (@newServicer_rejects_protocols examplePairs Config exampleServiceParse
                    exampleCredential exampleEndpoint exampleClient plainFormats ftpPairs
                    (fst ftpPairs) _ eq_refl eq_refl)
             {| endpoint.Protocol := "ftp"; endpoint.HTTP := "http://cn-bj.test";
                endpoint.HTTPS := "https://cn-bj.test" |});
      try reflexivity; discriminate.
Defined.

Lemma newServicer_success_witness :
  exists (opt : pairServiceNew.t) (cp : credential.Provider) (ep : endpoint.Endpoint),
    exampleServiceParse hmacPairs = inl opt
    /\ exampleCredential (pairServiceNew.Credential opt) = inl cp
    /\ credential.Protocol cp = credential.ProtocolHmac
    /\ exampleEndpoint (pairServiceNew.Endpoint opt) = inl ep
    /\ (endpoint.Protocol ep = endpoint.ProtocolHTTP
        \/ endpoint.Protocol ep = endpoint.ProtocolHTTPS)
    /\ exampleClient
         {| PublicKey := fst (credential.Hmac cp);
            PrivateKey := snd (credential.Hmac cp);
            FileHost := if String.eqb (endpoint.Protocol ep) endpoint.ProtocolHTTP
                        then endpoint.HTTP ep else endpoint.HTTPS ep;
            BucketHost := "api.ucloud.cn" |}
       = inl {| PublicKey := "ak"; PrivateKey := "sk";
                FileHost := "https://cn-bj.test"; BucketHost := "api.ucloud.cn" |}.
Proof.
  exact (@newServicer_success examplePairs Config exampleServiceParse exampleCredential
           exampleEndpoint exampleClient plainFormats hmacPairs
           {| service := {| PublicKey := "ak"; PrivateKey := "sk";
                            FileHost := "https://cn-bj.test";
                            BucketHost := "api.ucloud.cn" |} |} eq_refl).
Defined.

Lemma newStorage_defaults_witness :
  exists opt : pairStorageNew.t,
    exampleStorageParse hmacPairs = inl opt
    /\ bucket {| bucket := "bucket"; workDir := "/"; features := {| VirtualDir := false |} |}
       = pairStorageNew.Name opt
    /\ "/" = (if pairStorageNew.HasWorkDir opt then pairStorageNew.WorkDir opt else "/")
    /\ {| VirtualDir := false |}
       = (if pairStorageNew.HasStorageFeatures opt
          then pairStorageNew.StorageFeatures opt else {| VirtualDir := false |})
    /\ (pairStorageNew.HasWorkDir opt = false ->
        forall p : string,
          getAbsPath {| bucket := "bucket"; workDir := "/";
                        features := {| VirtualDir := false |} |} p = p
          /\ getRelPath {| bucket := "bucket"; workDir := "/";
                           features := {| VirtualDir := false |} |} p = p)
    /\ (pairStorageNew.HasStorageFeatures opt = false ->
        forall (path : string) (copt : pairStorageCreate.t),
          pairStorageCreate.HasObjectMode copt = true ->
          ObjectModeMethods.IsDir (pairStorageCreate.ObjectMode copt) = true ->
          create {| bucket := "bucket"; workDir := "/";
                    features := {| VirtualDir := false |} |} path copt = None).
Proof.
  exact (@newStorage_defaults examplePairs Config exampleStorageParse
           {| service := {| PublicKey := "ak"; PrivateKey := "sk";
                            FileHost := "https://cn-bj.test";
                            BucketHost := "api.ucloud.cn" |} |}
           hmacPairs _ eq_refl).
Defined.
